(** * stima: scraping scheduled power interruptions

    A shallow embedding of [stima/exceptions.py] and [stima/scraper.py],
    and the properties of the listing walker ([scrape_interruptions]), the
    PDF downloader ([download_pdf]) and the attachment extractor
    ([scrape_interruption_attachments]).

    The two generators are modelled by the full trace they produce when
    they are run to the end: the GET requests issued, the lines printed
    and the records yielded, in order, followed by the way the generator
    stops (exhausted, or an exception leaving it).  A consumer that stops
    pulling early observes a prefix of that trace. *)

From stdpp Require Import gmap strings list pretty.
From Stdlib.Strings Require Import Ascii.
From Stdlib.Strings Require Byte.

Open Scope string_scope.
Open Scope Z_scope.
Open Scope list_scope.

(** ** The parsed document ([bs4]) *)

Module bs4.

(** The tree [BeautifulSoup(content, "html.parser")] builds.  A node is a
    string or a [Tag].  A string is either text ([NavigableString], or
    [CData], which behaves the same here) or one of the special strings
    that [tag.string] gives back and [get_text()] passes over: a
    [Comment], and likewise a doctype, a declaration, a processing
    instruction and the text of a script or a style sheet; [Comment]
    stands for all of these.  The parser stores the value of a
    multi-valued attribute ([class], and [rel] on an anchor) as the list
    of its whitespace-separated tokens and every other attribute as a
    [str]; the two kinds are kept in two dicts here, [attrs] and
    [lists]. *)
#[warnings="-register-all"]
Inductive Node : Type :=
| NavigableString (s : string)
| Comment (s : string)
| Tag (name : string) (attrs : gmap string string)
      (lists : gmap string (list string)) (contents : list Node).

(** [Tag.descendants]: every node below [n], in document order. *)
Fixpoint descendants (n : Node) : list Node :=
  match n with
  | NavigableString _ | Comment _ => []
  | Tag _ _ _ cs =>
      (fix below (l : list Node) : list Node :=
         match l with
         | [] => []
         | c :: l' => c :: descendants c ++ below l'
         end) cs
  end.

(** One [key=value] criterion of a search against a tag's dicts: a list
    value matches when one of its tokens is [value], or when the tokens
    joined by a space are; a [str] value when it is [value]; a missing
    attribute never. *)
Definition attr_matches (attrs : gmap string string)
    (lists : gmap string (list string)) (kv : string * string) : bool :=
  match lists !! kv.1 with
  | Some toks =>
      bool_decide (kv.2 ∈ toks) || bool_decide (String.concat " " toks = kv.2)
  | None =>
      match attrs !! kv.1 with
      | Some v => bool_decide (v = kv.2)
      | None => false
      end
  end.

(** What [find_all(name, attrs={...})] keeps: tags of that name that meet
    every criterion ([class_=c] is the criterion [("class", c)]). *)
Definition matches (name : string) (crit : list (string * string))
    (n : Node) : bool :=
  match n with
  | NavigableString _ | Comment _ => false
  | Tag nm attrs lists _ =>
      bool_decide (nm = name) && forallb (attr_matches attrs lists) crit
  end.

Definition find_all (n : Node) (name : string)
    (crit : list (string * string)) : list Node :=
  filter (fun d => matches name crit d = true) (descendants n).

(** [find] is the first result of [find_all], or [None]. *)
Definition find (n : Node) (name : string)
    (crit : list (string * string)) : option Node :=
  head (find_all n name crit).

(** [tag.get(key)] for a [str]-valued attribute such as [href]. *)
Definition get (n : Node) (key : string) : option string :=
  match n with
  | NavigableString _ | Comment _ => None
  | Tag _ attrs _ _ => attrs !! key
  end.

(** [tag.string]: a tag with exactly one child has that child's string,
    every other tag has [None]; a string of either kind is its own. *)
Fixpoint string_ (n : Node) : option string :=
  match n with
  | NavigableString s | Comment s => Some s
  | Tag _ _ _ [c] => string_ c
  | Tag _ _ _ _ => None
  end.

(** [tag.get_text()]: the text below the tag, concatenated; comments
    and the other special strings are left out. *)
Fixpoint get_text (n : Node) : string :=
  match n with
  | NavigableString s => s
  | Comment _ => ""
  | Tag _ _ _ cs =>
      (fix texts (l : list Node) : string :=
         match l with
         | [] => ""
         | c :: l' => get_text c +:+ texts l'
         end) cs
  end.

(** [tag.a]: the first anchor below the tag. *)
Definition a (n : Node) : option Node := find n "a" [].

End bs4.

Import bs4.

(** ** Exceptions ([stima/exceptions.py] and the built-in ones the scraper
    can raise) *)

Module exceptions.

Inductive Exception : Type :=
| RequestError (url : string) (code : Z) (reason : string)
| WrongContentType (message url content_type : string)
| AttributeError (attribute : string)   (* an attribute looked up on [None] *)
| IndexError
| KeyError (key : string)
| UnicodeDecodeError.

(** [RequestError.__str__]. *)
Definition RequestError_str (url : string) (code : Z) (reason : string)
    : string :=
  reason +:+ " (" +:+ pretty code +:+ ") on " +:+ url.

(** [WrongContentType] passes its message to [Exception.__init__], whose
    [__str__] gives it back. *)
Definition WrongContentType_str (message : string) : string := message.

End exceptions.

Import exceptions.

(** ** HTTP responses ([requests]) *)

Module requests.

Definition lower_ascii (c : ascii) : ascii :=
  let n := nat_of_ascii c in
  if (65 <=? n)%nat && (n <=? 90)%nat then ascii_of_nat (n + 32) else c.

(** [str.lower] on ASCII text. *)
Fixpoint lower (s : string) : string :=
  match s with
  | EmptyString => EmptyString
  | String c r => String (lower_ascii c) (lower r)
  end.

(** [url] is the address the response finally came from, after any
    redirect.  [headers] is a case-insensitive dict: it is kept under
    lower-cased names and looked up by the lower-cased key.  [raw] is
    the body as the connection hands it over, piece by piece; how it is
    cut is up to the transport. *)
Record Response : Type := {
  url : string;
  status_code : Z;
  reason : string;
  headers : gmap string string;
  raw : list (list Byte.byte)
}.

(** [response.content]: the whole body. *)
Definition content (r : Response) : list Byte.byte := mjoin (raw r).

(** [response.headers[key]]; [None] stands for the [KeyError]. *)
Definition headers_getitem (r : Response) (key : string) : option string :=
  headers r !! lower key.

(** A piece cut into parts of [chunk_size] bytes, the last one possibly
    shorter; nothing for an empty piece.  The recursion is on a counter
    that starts at the piece's length. *)
Fixpoint chunked (fuel chunk_size : nat) (body : list Byte.byte)
    : list (list Byte.byte) :=
  match fuel, body with
  | S fuel', _ :: _ =>
      take chunk_size body :: chunked fuel' chunk_size (drop chunk_size body)
  | _, _ => []
  end.

(** [response.iter_content(chunk_size)] on a streamed response: the
    pieces of the body as they arrive, none empty and none longer than
    [chunk_size] bytes (a longer piece of the connection is read in
    several parts).  Their number and sizes follow the transport, only
    their concatenation is the body. *)
Definition iter_content (r : Response) (chunk_size : nat)
    : list (list Byte.byte) :=
  raw r ≫= λ piece, chunked (length piece) chunk_size piece.

End requests.

(** ** Temporary files ([tempfile]) *)

Module tempfile.

(** An open binary file: what it holds and where its position is. *)
Record File : Type := { data : list Byte.byte; pos : nat }.

Definition NamedTemporaryFile : File := {| data := []; pos := 0 |}.

(** [f.write(chunk)] overwrites from the position on, filling a gap
    beyond the end with zero bytes, and moves the position past what it
    wrote. *)
Definition write (f : File) (chunk : list Byte.byte) : File :=
  {| data := take (pos f) (data f)
             ++ replicate (pos f - length (data f)) Byte.x00
             ++ chunk
             ++ drop (pos f + length chunk) (data f);
     pos := pos f + length chunk |}.

Definition seek (f : File) (offset : nat) : File :=
  {| data := data f; pos := offset |}.


End tempfile.

(** ** Generators and their traces *)

Inductive Event (Y : Type) : Type :=
| Get (url : string)       (* [requests.get(url)] is issued *)
| Print (line : string)    (* [print(line)] *)
| Yield (y : Y).           (* the generator yields [y] *)
Arguments Get {Y} url.
Arguments Print {Y} line.
Arguments Yield {Y} y.

Inductive Outcome (A : Type) : Type :=
| Return (v : A)           (* the body ran to its end *)
| Raise (e : Exception)    (* an exception left the body *)
| OutOfFuel.               (* the model's recursion bound was reached *)
Arguments Return {A} v.
Arguments Raise {A} e.
Arguments OutOfFuel {A}.

Definition Gen (Y A : Type) : Type := list (Event Y) * Outcome A.

Definition gen_bind {Y A B} (f : A → Gen Y B) (m : Gen Y A) : Gen Y B :=
  match m.2 with
  | Return v => (m.1 ++ (f v).1, (f v).2)
  | Raise e => (m.1, Raise e)
  | OutOfFuel => (m.1, OutOfFuel)
  end.

#[global] Instance gen_ret {Y} : MRet (Gen Y) := λ A v, ([], Return v).
#[global] Instance gen_mbind {Y} : MBind (Gen Y) := λ A B, gen_bind.

Definition raise {Y A} (e : Exception) : Gen Y A := ([], Raise e).
Definition emit {Y} (ev : Event Y) : Gen Y () := ([ev], Return ()).

(** [try: m except <handler's exceptions> as error: ...]: the handler
    answers [None] for an exception it does not catch. *)
Definition try_except {Y A} (m : Gen Y A)
    (handler : Exception → option (Gen Y A)) : Gen Y A :=
  match m.2 with
  | Raise e =>
      match handler e with
      | Some h => (m.1 ++ h.1, h.2)
      | None => m
      end
  | _ => m
  end.

(** [x.attribute] where [x] may be [None]. *)
Definition attr_of {Y A} (x : option A) (attribute : string) : Gen Y A :=
  match x with
  | Some v => mret v
  | None => raise (AttributeError attribute)
  end.

(** The yields of a trace, in order. *)
Definition yields {Y} (t : list (Event Y)) : list Y :=
  omap (λ ev, match ev with Yield y => Some y | _ => None end) t.

(** ** The scraper ([stima/scraper.py]) *)

Module scraper.

Definition KPLC_INTERRUPTIONS_URL : string :=
  "https://kplc.co.ke/category/view/50/planned-power-interruptions".

(** [url.rsplit('/', 1)[1]]: what follows the last slash; [None] stands
    for the [IndexError] of a string without a slash. *)
Fixpoint rsplit_last (s : string) : option string :=
  match s with
  | EmptyString => None
  | String c r =>
      match rsplit_last r with
      | Some t => Some t
      | None => if bool_decide (c = "/"%char) then Some r else None
      end
  end.

(** [url or default], for a [url] that is [None] or a [str]. *)
Definition or_ (url : option string) (default : string) : string :=
  match url with
  | None | Some EmptyString => default
  | Some u => u
  end.

(** The dict [scrape_interruptions] yields. *)
Record ListingRecord : Type := {
  title : option string;
  link : option string
}.

(** The dict [scrape_interruption_attachments] yields. *)
Record AttachmentRecord : Type := {
  parent_link : string;
  pdf_filename : string;
  pdf_file_temp : tempfile.File;
  download_link_text : string;
  download_link : option string
}.

Section World.

(** The network and the two library functions the scraper applies to a
    page: [requests.get], [bytes.decode("utf-8")] ([None] for a
    [UnicodeDecodeError]) and [BeautifulSoup(_, "html.parser")].  Within
    one run the server answers an address the same way each time, and
    every request is answered. *)
Variable requests_get : string → requests.Response.
Variable decode_utf8 : list Byte.byte → option string.
Variable BeautifulSoup : string → Node.

Definition GET {Y} (url : string) : Gen Y requests.Response :=
  emit (Get url);; mret (requests_get url).

Definition make_request {Y} (url : string) : Gen Y string :=
  response ← GET url;
  if bool_decide (requests.status_code response ≠ 200) then
    raise (RequestError (requests.url response)
             (requests.status_code response) (requests.reason response))
  else
    match decode_utf8 (requests.content response) with
    | Some text => mret text
    | None => raise UnicodeDecodeError
    end.

Definition download_pdf {Y} (url : option string)
    : Gen Y (string * tempfile.File) :=
  url ← attr_of url "rsplit";
  pdf_filename ← match rsplit_last url with
                 | Some name => mret name
                 | None => raise IndexError
                 end;
  response ← GET url;
  if bool_decide (requests.status_code response ≠ 200) then
    raise (RequestError url
             (requests.status_code response) (requests.reason response))
  else
    content_type ← match requests.headers_getitem response "Content-Type" with
                   | Some v => mret v
                   | None => raise (KeyError (requests.lower "Content-Type"))
                   end;
    if bool_decide (content_type ≠ "application/pdf") then
      raise (WrongContentType "File is not a PDF"
               (requests.url response) content_type)
    else
      let pdf_file_temp := tempfile.NamedTemporaryFile in
      let pdf_file_temp :=
        foldl tempfile.write pdf_file_temp
              (requests.iter_content response 4096) in
      let pdf_file_temp := tempfile.seek pdf_file_temp 0 in
      mret (pdf_filename, pdf_file_temp).

(** [except RequestError as error: print("Error: {}".format(error)); raise] *)
Definition log_and_reraise {Y A} (e : Exception) : option (Gen Y A) :=
  match e with
  | RequestError url code reason =>
      Some (emit (Print ("Error: " +:+ RequestError_str url code reason));;
            raise e)
  | _ => None
  end.

(** The loop over the headings of the main region. *)
Fixpoint yield_headings (h2_tags : list Node) : Gen ListingRecord () :=
  match h2_tags with
  | [] => mret ()
  | h2_tag :: rest =>
      anchor ← attr_of (a h2_tag) "get";
      emit (Yield {| title := string_ h2_tag;
                     link := get anchor "href" |});;
      yield_headings rest
  end.

(** The generator recurses for as long as pages have a next-page anchor;
    [fuel] bounds the number of pages the model visits. *)
Fixpoint scrape_interruptions (fuel : nat) (url : option string)
    : Gen ListingRecord () :=
  match fuel with
  | O => ([], OutOfFuel)
  | S fuel' =>
      let url := or_ url KPLC_INTERRUPTIONS_URL in
      content ← try_except (make_request url) log_and_reraise;
      let soup := BeautifulSoup content in
      main ← attr_of (find soup "main" []) "find_all";
      yield_headings (find_all main "h2" [("class", "generictitle")]);;
      ul ← attr_of (find soup "ul" [("class", "pagination")]) "find";
      match find ul "a" [("rel", "next")] with
      | Some a_tag => scrape_interruptions fuel' (get a_tag "href")
      | None => mret ()
      end
  end.

(** [except (RequestError, WrongContentType) as error:
       print("Error: {}".format(error)); continue] *)
Definition log_and_skip {Y} (e : Exception)
    : option (Gen Y (option (string * tempfile.File))) :=
  match e with
  | RequestError url code reason =>
      Some (emit (Print ("Error: " +:+ RequestError_str url code reason));;
            mret None)
  | WrongContentType message _ _ =>
      Some (emit (Print ("Error: " +:+ WrongContentType_str message));;
            mret None)
  | _ => None
  end.

(** The anchors collected from the two regions, in the order the source
    extends [a_tags].  A tag that was found is true in [if div:] whatever
    it contains ([Tag.__bool__]); only [None] is false. *)
Definition collect_a_tags (soup : Node) : list Node :=
  let a_tags := [] in
  let attachment_div := find soup "div" [("class", "attachments")] in
  let a_tags :=
    match attachment_div with
    | Some div => a_tags ++ find_all div "a" [("class", "docicon")]
    | None => a_tags
    end in
  let genericintro_div := find soup "div" [("class", "genericintro")] in
  let a_tags :=
    match genericintro_div with
    | Some div => a_tags ++ find_all div "a" [("class", "download")]
    | None => a_tags
    end in
  a_tags.

(** The loop over the collected anchors. *)
Fixpoint download_each (url : string) (a_tags : list Node)
    : Gen AttachmentRecord () :=
  match a_tags with
  | [] => mret ()
  | a_tag :: rest =>
      let download_link_text := get_text a_tag in
      let download_link := get a_tag "href" in
      got ← try_except (pdf ← download_pdf download_link; mret (Some pdf))
                       log_and_skip;
      match got with
      | Some (pdf_filename, pdf_file_temp) =>
          emit (Yield {| parent_link := url;
                         pdf_filename := pdf_filename;
                         pdf_file_temp := pdf_file_temp;
                         download_link_text := download_link_text;
                         download_link := download_link |})
      | None => mret ()                                  (* [continue] *)
      end;;
      download_each url rest
  end.

Definition scrape_interruption_attachments (url : string)
    : Gen AttachmentRecord () :=
  content ← try_except (make_request url) log_and_reraise;
  let soup := BeautifulSoup content in
  download_each url (collect_a_tags soup).

End World.

End scraper.

(** ** A small site to run the scraper on *)

Module site.

Import scraper.

Definition text (s : string) : Node := NavigableString s.

Definition anchor (href : string) (cls : list string) (kids : list Node)
    : Node :=
  Tag "a" {[ "href" := href ]} {[ "class" := cls ]} kids.

Definition heading (href label : string) : Node :=
  Tag "h2" ∅ {[ "class" := ["generictitle"] ]} [anchor href [] [text label]].

Definition next_anchor (href : string) : Node :=
  Tag "a" {[ "href" := href ]} {[ "rel" := ["next"] ]} [text "»"].

Definition pagination (kids : list Node) : Node :=
  Tag "ul" ∅ {[ "class" := ["pagination"] ]} [Tag "li" ∅ ∅ kids].

Definition document (kids : list Node) : Node := Tag "[document]" ∅ ∅ kids.

Definition page1_url : string := "https://kplc.co.ke/category/view/50".
Definition page2_url : string := "https://kplc.co.ke/category/view/50?page=2".
Definition page3_url : string := "https://kplc.co.ke/category/view/50?page=3".

Definition h3071 : Node :=
  heading "/content/item/3071/interruptions---20.06.2019"
          "Interruptions - 20.06.2019".
Definition h3070 : Node :=
  heading "/content/item/3070/interruptions---13.06.2019"
          "Interruptions - 13.06.2019".
Definition h3069 : Node :=
  heading "/content/item/3069/interruptions---06.06.2019"
          "Interruptions - 06.06.2019".

(** Two headings and a link to the second page. *)
Definition page1 : Node :=
  document [Tag "main" ∅ ∅ [h3071; h3070]; pagination [next_anchor page2_url]].

(** One heading; the pagination list has a previous-page link only. *)
Definition page2 : Node :=
  document [Tag "main" ∅ ∅ [h3069];
            pagination [Tag "a" {[ "href" := page1_url ]}
                            {[ "rel" := ["prev"] ]} [text "«"]]].

(** A single page of results: no pagination list at all. *)
Definition single_page : Node := document [Tag "main" ∅ ∅ [h3071; h3070]].

(** A page that links on to a page the server does not have. *)
Definition page_before_gap : Node :=
  document [Tag "main" ∅ ∅ [h3071]; pagination [next_anchor page3_url]].

(** A heading with text after its anchor. *)
Definition h_mixed : Node :=
  Tag "h2" ∅ {[ "class" := ["generictitle"] ]}
      [anchor "/content/item/3068/x" [] [text "Interruptions"];
       text " - 30.05.2019"].
Definition mixed_page : Node :=
  document [Tag "main" ∅ ∅ [h_mixed]; pagination []].

Definition pdf_a : string := "https://kplc.co.ke/img/full/a.pdf".
Definition pdf_b : string := "https://kplc.co.ke/img/full/b.pdf".
Definition pdf_html : string := "https://kplc.co.ke/img/full/notice.pdf".
Definition pdf_moved : string := "https://kplc.co.ke/img/old/c.pdf".
Definition pdf_moved_to : string := "https://kplc.co.ke/img/new/c.pdf".
Definition pdf_untyped : string := "https://kplc.co.ke/img/full/d.pdf".
Definition pdf_empty : string := "https://kplc.co.ke/img/full/empty.pdf".
Definition pdf_charset : string := "https://kplc.co.ke/img/full/e.pdf".

Definition detail_of (docs archives : list string) : Node :=
  document
    [Tag "div" ∅ {[ "class" := ["genericintro"] ]}
         ((λ u, anchor u ["download"] [text "archive"]) <$> archives);
     Tag "div" ∅ {[ "class" := ["attachments"] ]}
         ((λ u, anchor u ["docicon"] [text "pdf"]) <$> docs)].

Definition ok_bytes : list Byte.byte :=
  [Byte.x25; Byte.x50; Byte.x44; Byte.x46; Byte.x2d].   (* %PDF- *)

Definition pdf_response (u : string) (ct : option string)
    (pieces : list (list Byte.byte)) : requests.Response :=
  {| requests.url := u; requests.status_code := 200; requests.reason := "OK";
     requests.headers :=
       match ct with Some v => {[ "content-type" := v ]} | None => ∅ end;
     requests.raw := pieces |}.

Definition not_found (u : string) : requests.Response :=
  {| requests.url := u; requests.status_code := 404;
     requests.reason := "Not Found"; requests.headers := ∅;
     requests.raw := [] |}.

(** Three detail pages: two good attachments; a page whose first and
    third candidates fail; a page whose second candidate comes without a
    content type. *)
Definition item1_url : string := "https://kplc.co.ke/item/1".
Definition item1 : Node := detail_of [pdf_a; pdf_b] [].
Definition item2_url : string := "https://kplc.co.ke/item/2".
Definition item2 : Node := detail_of [pdf_html; pdf_a] [pdf_moved; pdf_b].
Definition item3_url : string := "https://kplc.co.ke/item/3".
Definition item3 : Node := detail_of [pdf_a; pdf_untyped; pdf_b] [].

(** The pages the server has, by the name their body carries. *)
Definition pages : list (string * (string * Node)) :=
  [ (page1_url, ("page1", page1));
    (page2_url, ("page2", page2));
    ("https://kplc.co.ke/single", ("single", single_page));
    ("https://kplc.co.ke/gap", ("gap", page_before_gap));
    ("https://kplc.co.ke/mixed", ("mixed", mixed_page));
    (item1_url, ("item1", item1));
    (item2_url, ("item2", item2));
    (item3_url, ("item3", item3));
    ("https://kplc.co.ke/item/4", ("item4", document [])) ].

Definition pdfs : list (string * requests.Response) :=
  [ (pdf_a, pdf_response pdf_a (Some "application/pdf") [ok_bytes]);
    (pdf_b, pdf_response pdf_b (Some "application/pdf") [ok_bytes; ok_bytes]);
    (pdf_empty, pdf_response pdf_empty (Some "application/pdf") []);
    (pdf_html, pdf_response pdf_html (Some "text/html") [ok_bytes]);
    (pdf_charset,
       pdf_response pdf_charset (Some "application/pdf;charset=binary")
                    [ok_bytes]);
    (pdf_moved, not_found pdf_moved_to);
    (pdf_untyped, pdf_response pdf_untyped None [ok_bytes]) ].

Definition assoc {V} (k : string) (l : list (string * V)) : option V :=
  (list_find (λ kv, kv.1 = k) l) ≫= (λ hit, Some hit.2.2).

Definition requests_get (u : string) : requests.Response :=
  match assoc u pages, assoc u pdfs with
  | Some (name, _), _ =>
      {| requests.url := u; requests.status_code := 200;
         requests.reason := "OK";
         requests.headers := {[ "content-type" := "text/html" ]};
         requests.raw := [String.list_byte_of_string name] |}
  | None, Some r => r
  | None, None => not_found u
  end.

Definition decode_utf8 (b : list Byte.byte) : option string :=
  Some (String.string_of_list_byte b).

(** The parser, on the bodies of this site. *)
Definition BeautifulSoup (body : string) : Node :=
  default (document [])
          ((list_find (λ kv, kv.2.1 = body) pages) ≫= (λ hit, Some hit.2.2.2)).

Definition walk := scrape_interruptions requests_get decode_utf8 BeautifulSoup.
Definition attachments :=
  scrape_interruption_attachments requests_get decode_utf8 BeautifulSoup.
Definition download {Y} := @download_pdf requests_get Y.

End site.

(** ** More pages on the small site *)

Module site_more.

Import scraper site.

Definition round_a_url : string := "https://kplc.co.ke/round?page=1".
Definition round_b_url : string := "https://kplc.co.ke/round?page=2".

(** Two listing pages whose next-page links lead to each other. *)
Definition round_a : Node :=
  document [Tag "main" ∅ ∅ [h3071; h3070]; pagination [next_anchor round_b_url]].
Definition round_b : Node :=
  document [Tag "main" ∅ ∅ [h3069]; pagination [next_anchor round_a_url]].

(** A listing page whose next-page anchor has no [href]. *)
Definition bare_next_url : string := "https://kplc.co.ke/bare-next".
Definition bare_next_anchor : Node :=
  Tag "a" ∅ {[ "rel" := ["next"] ]} [text "»"].
Definition bare_next : Node :=
  document [Tag "main" ∅ ∅ [h3069]; pagination [bare_next_anchor]].

(** A listing page whose second heading holds no anchor. *)
Definition plain_heading_url : string := "https://kplc.co.ke/plain-heading".
Definition h_plain : Node :=
  Tag "h2" ∅ {[ "class" := ["generictitle"] ]}
      [text "Interruptions - 27.06.2019"].
Definition plain_heading : Node :=
  document [Tag "main" ∅ ∅ [h3071; h_plain; h3070];
            pagination [next_anchor page2_url]].

(** A detail page whose second attachment link is a bare file name. *)
Definition item_bare_url : string := "https://kplc.co.ke/item/6".
Definition item_bare : Node := detail_of [pdf_a; "notice.pdf"; pdf_b] [].

Definition pages : list (string * (string * Node)) :=
  [ (round_a_url, ("round_a", round_a));
    (round_b_url, ("round_b", round_b));
    (bare_next_url, ("bare_next", bare_next));
    (plain_heading_url, ("plain_heading", plain_heading));
    (item_bare_url, ("item_bare", item_bare)) ].

Definition requests_get (u : string) : requests.Response :=
  match assoc u pages with
  | Some (name, _) =>
      {| requests.url := u; requests.status_code := 200;
         requests.reason := "OK";
         requests.headers := {[ "content-type" := "text/html" ]};
         requests.raw := [String.list_byte_of_string name] |}
  | None => site.requests_get u
  end.

Definition BeautifulSoup (body : string) : Node :=
  match list_find (λ kv, kv.2.1 = body) pages with
  | Some hit => hit.2.2.2
  | None => site.BeautifulSoup body
  end.

(** A decoder for a server that sends no valid UTF-8. *)
Definition decode_nothing (b : list Byte.byte) : option string := None.

Definition walk := scrape_interruptions requests_get decode_utf8 BeautifulSoup.
Definition attachments :=
  scrape_interruption_attachments requests_get decode_utf8 BeautifulSoup.

End site_more.

(** ** The vocabulary of the specification *)

Module contract.

Import scraper.

Section World.

Variable requests_get : string → requests.Response.
Variable decode_utf8 : list Byte.byte → option string.
Variable BeautifulSoup : string → Node.

(** The document behind [url], when the server answers 200 and the body
    decodes. *)
Definition page_at (url : string) : option Node :=
  if bool_decide (requests.status_code (requests_get url) = 200) then
    BeautifulSoup <$> decode_utf8 (requests.content (requests_get url))
  else None.

End World.

(** The headings of a listing page: the [h2] elements of class
    [generictitle] in its main region, in document order. *)
Definition headings (soup : Node) : list Node :=
  match find soup "main" [] with
  | Some main => find_all main "h2" [("class", "generictitle")]
  | None => []
  end.

(** The next-page anchor: the [rel=next] anchor of the pagination list. *)
Definition next_anchor (soup : Node) : option Node :=
  find soup "ul" [("class", "pagination")] ≫= λ ul, find ul "a" [("rel", "next")].

(** The record a heading stands for. *)
Definition record_of (h2_tag : Node) : ListingRecord :=
  {| title := string_ h2_tag;
     link := a h2_tag ≫= λ anchor, get anchor "href" |}.

(** The markup a listing page has: a main region, a pagination list, and
    an anchor in every heading. *)
Definition listing_page (soup : Node) : Prop :=
  is_Some (find soup "main" []) ∧
  is_Some (find soup "ul" [("class", "pagination")]) ∧
  Forall (λ h2_tag, is_Some (a h2_tag)) (headings soup).

Section Chain.

Variable requests_get : string → requests.Response.
Variable decode_utf8 : list Byte.byte → option string.
Variable BeautifulSoup : string → Node.

(** [pages] is the chain of listing pages that starts at [url]: each page
    but the last links to the next one, the last has no next-page
    anchor. *)
Fixpoint listing_chain (url : string) (pages : list Node) : Prop :=
  match pages with
  | [] => False
  | soup :: rest =>
      page_at requests_get decode_utf8 BeautifulSoup url = Some soup ∧
      listing_page soup ∧
      match rest with
      | [] => next_anchor soup = None
      | _ :: _ =>
          ∃ a_tag, next_anchor soup = Some a_tag ∧
            listing_chain (or_ (get a_tag "href") KPLC_INTERRUPTIONS_URL) rest
      end
  end.

(** [pages] are listing pages linked one to the next from [url] on, and
    the last of them links on to [target] (which is [url] itself when
    there are no pages). *)
Fixpoint listing_path (url : string) (pages : list Node) (target : string)
    : Prop :=
  match pages with
  | [] => url = target
  | soup :: rest =>
      page_at requests_get decode_utf8 BeautifulSoup url = Some soup ∧
      listing_page soup ∧
      ∃ a_tag, next_anchor soup = Some a_tag ∧
        listing_path (or_ (get a_tag "href") KPLC_INTERRUPTIONS_URL) rest target
  end.

End Chain.

(** The walk over a chain, as the specification describes it: page after
    page, the request for a page and then one record per heading. *)
Fixpoint walk_trace (url : string) (pages : list Node)
    : list (Event ListingRecord) :=
  match pages with
  | [] => []
  | soup :: rest =>
      Get url :: (Yield ∘ record_of <$> headings soup)
      ++ match next_anchor soup with
         | Some a_tag =>
             walk_trace (or_ (get a_tag "href") KPLC_INTERRUPTIONS_URL) rest
         | None => []
         end
  end.

(** The anchors of class [cls] inside the first [div] of class [region];
    none when there is no such region. *)
Definition region_anchors (soup : Node) (region cls : string) : list Node :=
  match find soup "div" [("class", region)] with
  | Some div => find_all div "a" [("class", cls)]
  | None => []
  end.

(** The candidate attachment anchors of a detail page. *)
Definition candidates (soup : Node) : list Node :=
  region_anchors soup "attachments" "docicon"
  ++ region_anchors soup "genericintro" "download".

(** The two kinds of failure of a download. *)
Definition download_failure (e : Exception) : bool :=
  match e with
  | RequestError _ _ _ | WrongContentType _ _ _ => true
  | _ => false
  end.

(** The line printed for a failed download. *)
Definition failure_line (e : Exception) : string :=
  match e with
  | RequestError url code reason =>
      "Error: " +:+ reason +:+ " (" +:+ pretty code +:+ ") on " +:+ url
  | WrongContentType message _ _ => "Error: " +:+ message
  | _ => ""
  end.

(** A call that ran to its end. *)
Definition succeeded {Y A} (m : Gen Y A) : bool :=
  match m.2 with
  | Return _ => true
  | _ => false
  end.

End contract.

(** ** What a run shows *)

Module observations.

Import scraper.

(** Whether a string has a slash in it. *)
Fixpoint contains_slash (s : string) : bool :=
  match s with
  | EmptyString => false
  | String c r => bool_decide (c = "/"%char) || contains_slash r
  end.

(** The addresses requested in a trace, in order. *)
Definition gets {Y} (t : list (Event Y)) : list string :=
  omap (λ ev, match ev with Get url => Some url | _ => None end) t.

(** A link [download_pdf] cannot take a file name from: no [href] at all,
    or one without a slash; and the exception it raises then. *)
Definition unusable (link : option string) : bool :=
  match link with
  | None => true
  | Some u => negb (contains_slash u)
  end.

Definition unusable_error (link : option string) : Exception :=
  match link with
  | None => AttributeError "rsplit"
  | Some _ => IndexError
  end.

Section World.

Variable requests_get : string → requests.Response.
Variable decode_utf8 : list Byte.byte → option string.
Variable BeautifulSoup : string → Node.

(** The record owed for a candidate: there is one when its download
    returns. *)
Definition attachment_of (url : string) (a_tag : Node)
    : option AttachmentRecord :=
  match download_pdf requests_get (Y:=AttachmentRecord) (get a_tag "href") with
  | (_, Return (name, file)) =>
      Some {| parent_link := url;
              pdf_filename := name;
              pdf_file_temp := file;
              download_link_text := get_text a_tag;
              download_link := get a_tag "href" |}
  | _ => None
  end.

(** The extraction as the specification describes it (4.4, steps 3 to
    5): the candidates are taken in order; each one is downloaded; a
    download that fails with [RequestError] or [WrongContentType] is
    logged and the candidate skipped; a download that returns gives a
    record; the next candidate follows.  Any other exception ends the
    extraction. *)
Fixpoint extraction (url : string) (a_tags : list Node)
    : Gen AttachmentRecord () :=
  match a_tags with
  | [] => ([], Return ())
  | a_tag :: rest =>
      match download_pdf requests_get (get a_tag "href") with
      | (t, Return (name, file)) =>
          (t ++ Yield {| parent_link := url;
                         pdf_filename := name;
                         pdf_file_temp := file;
                         download_link_text := get_text a_tag;
                         download_link := get a_tag "href" |}
             :: (extraction url rest).1,
           (extraction url rest).2)
      | (t, Raise e) =>
          if contract.download_failure e
          then (t ++ Print (contract.failure_line e) :: (extraction url rest).1,
                (extraction url rest).2)
          else (t, Raise e)
      | (t, OutOfFuel) => (t, OutOfFuel)
      end
  end.

End World.

End observations.

(** ** Properties *)

Section Generators.

Context {Y : Type}.

Lemma bind_return {A B} (t : list (Event Y)) (v : A) (f : A → Gen Y B) :
  (t, Return v) ≫= f = (t ++ (f v).1, (f v).2).
Proof. reflexivity. Qed.

Lemma bind_mret {A B} (v : A) (f : A → Gen Y B) : mret v ≫= f = f v.
Proof. unfold mbind, gen_mbind, gen_bind; simpl. by destruct (f v). Qed.

Lemma try_except_return {A} (t : list (Event Y)) (v : A) handler :
  try_except (t, Return v) handler = (t, Return v).
Proof. reflexivity. Qed.

Lemma gen_bind_assoc {A B C} (m : Gen Y A) (f : A → Gen Y B)
    (g : B → Gen Y C) :
  (m ≫= f) ≫= g = m ≫= (λ v, f v ≫= g).
Proof.
  destruct m as [t [v| |]]; try done.
  unfold mbind, gen_mbind, gen_bind; simpl.
  destruct (f v) as [t' [w| |]]; simpl; try done.
  by rewrite app_assoc.
Qed.

Lemma yields_app (t1 t2 : list (Event Y)) :
  yields (t1 ++ t2) = yields t1 ++ yields t2.
Proof. apply omap_app. Qed.

Lemma yields_Get (url : string) (t : list (Event Y)) :
  yields (Get url :: t) = yields t.
Proof. reflexivity. Qed.

Lemma yields_Print (line : string) (t : list (Event Y)) :
  yields (Print line :: t) = yields t.
Proof. reflexivity. Qed.

Lemma yields_cons_Yield (y : Y) (t : list (Event Y)) :
  yields (Yield y :: t) = y :: yields t.
Proof. reflexivity. Qed.

Lemma yields_Yield (ys : list Y) : yields (Yield <$> ys) = ys.
Proof. induction ys as [|y ys IH]; simpl; [done|]. by f_equal. Qed.

End Generators.

(** *** Chunks and files *)

Section Chunks.

Variable chunk_size : nat.
Hypothesis chunk_size_pos : (0 < chunk_size)%nat.

Lemma chunked_concat (fuel : nat) :
  ∀ body, (length body ≤ fuel)%nat →
  concat (requests.chunked fuel chunk_size body) = body.
Proof.
  induction fuel as [|fuel IH]; intros [|b body] Hlen; simpl in *;
    try done; try lia.
  rewrite IH by (rewrite length_drop; simpl; lia).
  apply (take_drop chunk_size (b :: body)).
Qed.


Lemma iter_content_concat (r : requests.Response) :
  concat (requests.iter_content r chunk_size) = requests.content r.
Proof.
  unfold requests.iter_content, requests.content.
  induction (requests.raw r) as [|piece pieces IH]; [done|].
  cbn [mbind list_bind mjoin list_join]. rewrite concat_app.
  f_equal; [by apply chunked_concat|exact IH].
Qed.



End Chunks.

Lemma write_at_end (f : tempfile.File) (chunk : list Byte.byte) :
  tempfile.pos f = length (tempfile.data f) →
  tempfile.write f chunk
  = {| tempfile.data := tempfile.data f ++ chunk;
       tempfile.pos := length (tempfile.data f ++ chunk) |}.
Proof.
  intros Hpos. unfold tempfile.write. rewrite Hpos.
  rewrite take_ge, drop_ge, Nat.sub_diag, length_app by lia.
  simpl. by rewrite app_nil_r.
Qed.

Lemma foldl_write_at_end (chunks : list (list Byte.byte)) :
  ∀ f, tempfile.pos f = length (tempfile.data f) →
  foldl tempfile.write f chunks
  = {| tempfile.data := tempfile.data f ++ concat chunks;
       tempfile.pos := length (tempfile.data f ++ concat chunks) |}.
Proof.
  induction chunks as [|chunk chunks IH]; intros f Hpos; simpl.
  - rewrite app_nil_r, <-Hpos. by destruct f.
  - rewrite IH; rewrite write_at_end by done; simpl; [|done].
    by rewrite <-app_assoc.
Qed.

(** Runs the steps of a generator that are known. *)
Ltac run :=
  repeat (progress (unfold mbind, mret, gen_mbind, gen_ret, gen_bind, emit,
                      raise, attr_of, try_except; simpl)).

Section Properties.

Import scraper contract.

Variable requests_get : string → requests.Response.
Variable decode_utf8 : list Byte.byte → option string.
Variable BeautifulSoup : string → Node.

Local Abbreviation page_at :=
  (page_at requests_get decode_utf8 BeautifulSoup).
Local Abbreviation listing_chain :=
  (listing_chain requests_get decode_utf8 BeautifulSoup).
Local Abbreviation listing_path :=
  (listing_path requests_get decode_utf8 BeautifulSoup).
Local Abbreviation GET := (GET requests_get).
Local Abbreviation make_request := (make_request requests_get decode_utf8).
Local Abbreviation download_pdf := (download_pdf requests_get).
Local Abbreviation download_each := (download_each requests_get).
Local Abbreviation scrape_interruptions :=
  (scrape_interruptions requests_get decode_utf8 BeautifulSoup).
Local Abbreviation scrape_interruption_attachments :=
  (scrape_interruption_attachments requests_get decode_utf8 BeautifulSoup).
Local Abbreviation extraction := (observations.extraction requests_get).
Local Abbreviation attachment_of := (observations.attachment_of requests_get).

Lemma GET_bind {Y B} (url : string) (f : requests.Response → Gen Y B) :
  GET url ≫= f
  = (Get url :: (f (requests_get url)).1, (f (requests_get url)).2).
Proof. reflexivity. Qed.

(** A page the server has is fetched with one request and no output. *)
Lemma make_request_page {Y} (url : string) (soup : Node) :
  page_at url = Some soup →
  ∃ text, (make_request url : Gen Y string) = ([Get url], Return text)
          ∧ BeautifulSoup text = soup.
Proof.
  unfold contract.page_at, scraper.make_request. rewrite GET_bind.
  case_bool_decide as Hst; [|done].
  rewrite bool_decide_false by (intros Hne; by apply Hne).
  destruct (decode_utf8 _) as [text|]; simpl; [|done].
  intros [= <-]. by exists text.
Qed.

(** A refused page is reported on one line and the error goes on. *)
Lemma make_request_refused {Y} (url : string) :
  requests.status_code (requests_get url) ≠ 200 →
  let r := requests_get url in
  try_except (make_request url : Gen Y string) log_and_reraise
  = ([Get url;
      Print ("Error: " +:+ RequestError_str (requests.url r)
                             (requests.status_code r) (requests.reason r))],
     Raise (RequestError (requests.url r) (requests.status_code r)
              (requests.reason r))).
Proof.
  intros Hst r. unfold scraper.make_request. rewrite GET_bind.
  by rewrite bool_decide_true.
Qed.

(** The loop over headings that all hold an anchor yields one record per
    heading, in order, and nothing else. *)
Lemma yield_headings_records (h2_tags : list Node) :
  Forall (λ h2_tag, is_Some (a h2_tag)) h2_tags →
  yield_headings h2_tags = (Yield ∘ record_of <$> h2_tags, Return ()).
Proof.
  induction 1 as [|h2_tag rest [anchor Ha] _ IH]; [done|].
  cbn [yield_headings]. rewrite Ha, IH. run.
  unfold record_of. by rewrite Ha.
Qed.

(** One step of the walk on a listing page: the request, the page's
    records, then the rest of the walk from the next-page anchor. *)
Lemma scrape_interruptions_page (fuel : nat) (url : option string) (soup : Node) :
  page_at (or_ url KPLC_INTERRUPTIONS_URL) = Some soup →
  listing_page soup →
  scrape_interruptions (S fuel) url
  = let rest := match next_anchor soup with
                | Some a_tag => scrape_interruptions fuel (get a_tag "href")
                | None => mret ()
                end in
    (Get (or_ url KPLC_INTERRUPTIONS_URL)
       :: (Yield ∘ record_of <$> headings soup) ++ rest.1, rest.2).
Proof.
  intros Hpage (Hmain & Hul & Hanchors).
  destruct (make_request_page (Y:=ListingRecord) _ _ Hpage) as (text & Hreq & Hsoup).
  cbn [scraper.scrape_interruptions].
  rewrite Hreq, try_except_return, bind_return, Hsoup.
  unfold next_anchor, headings in *.
  destruct Hmain as [main Hmain], Hul as [ul Hul].
  rewrite Hmain in Hanchors |- *. run.
  rewrite (yield_headings_records _ Hanchors), Hul. run.
  by destruct (find ul "a" _).
Qed.

(** C1. Along a chain of listing pages the walk requests the pages in the
    order the next-page links give; after the request for a page it
    yields one record per heading of that page, in document order, before
    it turns to the next page; it ends, without an error, after the
    records of the page that has no next-page anchor.  Hence the records
    of the walk are those of the pages, page after page, and their number
    is the sum of the numbers of headings.  (The model visits at most
    [fuel] pages; any bound that covers the chain gives the result.) *)
Theorem C1_walk_follows_chain (pages : list Node) :
  ∀ (url : option string) (fuel : nat),
  listing_chain (or_ url KPLC_INTERRUPTIONS_URL) pages →
  (length pages ≤ fuel)%nat →
  let walk := scrape_interruptions fuel url in
  walk = (walk_trace (or_ url KPLC_INTERRUPTIONS_URL) pages, Return ())
  ∧ yields walk.1 = concat ((λ soup, record_of <$> headings soup) <$> pages)
  ∧ length (yields walk.1) = sum_list (length ∘ headings <$> pages).
Proof.
  induction pages as [|soup rest IH]; intros url fuel Hchain Hfuel; [done|].
  destruct Hchain as (Hpage & Hlisting & Hnext).
  destruct fuel as [|fuel]; [simpl in Hfuel; lia|].
  intros walk; subst walk.
  rewrite (scrape_interruptions_page _ _ _ Hpage Hlisting).
  cbn [walk_trace fmap list_fmap concat sum_list sum_list_with].
  destruct rest as [|soup' rest].
  - rewrite Hnext. cbn [fst snd]. run.
    rewrite !app_nil_r, list_fmap_compose, yields_Yield.
    rewrite length_fmap. unfold compose. split_and!; [done..|lia].
  - destruct Hnext as (a_tag & -> & Hchain).
    destruct (IH (get a_tag "href") fuel Hchain) as (Hwalk & Hrecs & Hlen);
      [simpl in Hfuel |- *; lia|].
    cbv zeta in Hwalk, Hrecs, Hlen. rewrite Hwalk in Hrecs, Hlen |- *.
    cbn [fst snd] in Hrecs, Hlen |- *. split_and!; [done| |].
    + by rewrite yields_Get, yields_app, list_fmap_compose, yields_Yield, Hrecs.
    + rewrite yields_Get, yields_app, list_fmap_compose, yields_Yield,
        length_app, length_fmap, Hlen.
      done.
Qed.

(** C9. When the request for a listing page is refused (a status other
    than 200), be it the first page or one reached through next-page
    links, the walk prints one line, [Error: ] followed by the error's
    text [{reason} ({code}) on {url}], and the [RequestError] leaves the
    walk: the records yielded are those of the pages before, and no
    request follows. *)
Theorem C9_refused_page_aborts_walk (pages : list Node) :
  ∀ (url : option string) (target : string) (fuel : nat),
  listing_path (or_ url KPLC_INTERRUPTIONS_URL) pages target →
  requests.status_code (requests_get target) ≠ 200 →
  (length pages < fuel)%nat →
  let r := requests_get target in
  let walk := scrape_interruptions fuel url in
  walk = (walk_trace (or_ url KPLC_INTERRUPTIONS_URL) pages
            ++ [Get target;
                Print ("Error: " +:+ requests.reason r +:+ " (" +:+
                       pretty (requests.status_code r) +:+ ") on " +:+
                       requests.url r)],
          Raise (RequestError (requests.url r) (requests.status_code r)
                   (requests.reason r)))
  ∧ yields walk.1 = concat ((λ soup, record_of <$> headings soup) <$> pages).
Proof.
  induction pages as [|soup rest IH]; intros url target fuel Hpath Hst Hfuel.
  - simpl in Hpath. subst target.
    destruct fuel as [|fuel]; [simpl in Hfuel; lia|].
    intros r walk; subst r walk. cbn [scraper.scrape_interruptions].
    rewrite (make_request_refused _ Hst). by run.
  - destruct Hpath as (Hpage & Hlisting & a_tag & Hnext & Hpath).
    destruct fuel as [|fuel]; [simpl in Hfuel; lia|].
    intros r walk; subst r walk.
    rewrite (scrape_interruptions_page _ _ _ Hpage Hlisting), Hnext.
    destruct (IH (get a_tag "href") target fuel Hpath Hst) as (Hwalk & Hrecs);
      [simpl in Hfuel; lia|].
    cbv zeta in Hwalk, Hrecs. rewrite Hwalk in Hrecs |- *.
    cbn [fst snd walk_trace fmap list_fmap concat] in Hrecs |- *.
    rewrite Hnext. split.
    + by rewrite <-app_comm_cons, <-app_assoc.
    + by rewrite yields_Get, yields_app, list_fmap_compose, yields_Yield, Hrecs.
Qed.

(** *** What a download comes to *)

(** A download issues at most its one request and never prints or
    yields. *)
Lemma download_pdf_yields {Y} (link : option string) :
  yields (download_pdf link : Gen Y _).1 = [].
Proof.
  unfold scraper.download_pdf. destruct link as [u|]; [|done]. run.
  destruct (rsplit_last u); [|done]. run.
  case_bool_decide; [done|].
  destruct (requests.headers_getitem _ _); [|done]. run.
  by case_bool_decide.
Qed.

Section Download.

Context {Y : Type} (u name : string).
Hypothesis Hname : rsplit_last u = Some name.

Lemma download_pdf_refused :
  requests.status_code (requests_get u) ≠ 200 →
  (download_pdf (Some u) : Gen Y _)
  = ([Get u], Raise (RequestError u (requests.status_code (requests_get u))
                       (requests.reason (requests_get u)))).
Proof.
  intros Hst. unfold scraper.download_pdf. run. rewrite Hname. run.
  by rewrite bool_decide_true.
Qed.

Lemma download_pdf_untyped :
  requests.status_code (requests_get u) = 200 →
  requests.headers_getitem (requests_get u) "Content-Type" = None →
  (download_pdf (Some u) : Gen Y _) = ([Get u], Raise (KeyError "content-type")).
Proof.
  intros Hst Hct. unfold scraper.download_pdf. run. rewrite Hname. run.
  rewrite bool_decide_false by (intros Hne; by apply Hne).
  by rewrite Hct.
Qed.

Lemma download_pdf_wrong_type (ct : string) :
  requests.status_code (requests_get u) = 200 →
  requests.headers_getitem (requests_get u) "Content-Type" = Some ct →
  ct ≠ "application/pdf" →
  (download_pdf (Some u) : Gen Y _)
  = ([Get u], Raise (WrongContentType "File is not a PDF"
                       (requests.url (requests_get u)) ct)).
Proof.
  intros Hst Hct Hne. unfold scraper.download_pdf. run. rewrite Hname. run.
  rewrite bool_decide_false by (intros Hne'; by apply Hne').
  rewrite Hct. run. by rewrite bool_decide_true.
Qed.

Lemma download_pdf_pdf :
  requests.status_code (requests_get u) = 200 →
  requests.headers_getitem (requests_get u) "Content-Type"
    = Some "application/pdf" →
  (download_pdf (Some u) : Gen Y _)
  = ([Get u],
     Return (name,
             tempfile.seek
               (foldl tempfile.write tempfile.NamedTemporaryFile
                      (requests.iter_content (requests_get u) 4096)) 0)).
Proof.
  intros Hst Hct. unfold scraper.download_pdf. run. rewrite Hname. run.
  rewrite bool_decide_false by (intros Hne; by apply Hne).
  rewrite Hct. by run.
Qed.

End Download.


(** C6. When the response has status 200 and declares a content type,
    the download returns exactly when the declared type is the string
    [application/pdf]; with any other value it raises [WrongContentType]
    with the message [File is not a PDF], the address the response came
    from and the declared type. *)
Theorem C6_exact_content_type {Y : Type} (u name content_type : string) :
  rsplit_last u = Some name →
  requests.status_code (requests_get u) = 200 →
  requests.headers_getitem (requests_get u) "Content-Type"
    = Some content_type →
  (succeeded (download_pdf (Some u) : Gen Y _) = true
   ↔ content_type = "application/pdf")
  ∧ (content_type ≠ "application/pdf" →
     (download_pdf (Some u) : Gen Y _)
     = ([Get u], Raise (WrongContentType "File is not a PDF"
                          (requests.url (requests_get u)) content_type))).
Proof.
  intros Hname Hst Hct.
  destruct (decide (content_type = "application/pdf")) as [->|Hne].
  - split; [|done]. by rewrite (download_pdf_pdf _ _ Hname Hst Hct).
  - split; [|intros _; by apply (download_pdf_wrong_type _ name)].
    by rewrite (download_pdf_wrong_type _ _ Hname _ Hst Hct Hne).
Qed.

(** *** The loop over the candidates *)

(** One turn of the loop, by what the download comes to. *)
Lemma download_each_cons (url : string) (a_tag : Node) (rest : list Node) :
  download_each url (a_tag :: rest)
  = let later := download_each url rest in
    match download_pdf (get a_tag "href") with
    | (t, Return (name, file)) =>
        (t ++ Yield {| parent_link := url;
                       pdf_filename := name;
                       pdf_file_temp := file;
                       download_link_text := get_text a_tag;
                       download_link := get a_tag "href" |} :: later.1,
         later.2)
    | (t, Raise e) =>
        if download_failure e
        then (t ++ Print (failure_line e) :: later.1, later.2)
        else (t, Raise e)
    | (t, OutOfFuel) => (t, OutOfFuel)
    end.
Proof.
  cbn [scraper.download_each].
  destruct (download_pdf (get a_tag "href")) as [t [[name file]|e|]].
  - run. by rewrite <-app_assoc.
  - destruct e; run; by rewrite <-?app_assoc, ?app_nil_r.
  - by run.
Qed.

Lemma download_each_app (url : string) (l1 l2 : list Node) :
  download_each url (l1 ++ l2)
  = (download_each url l1 ;; download_each url l2).
Proof.
  induction l1 as [|a_tag l1 IH]; cbn [app scraper.download_each];
    [by rewrite bind_mret|].
  rewrite IH, gen_bind_assoc.
  destruct (try_except _ _) as [t [got| |]]; [|done..].
  by rewrite !bind_return, gen_bind_assoc.
Qed.

(** Neither kind of download failure leaves the loop. *)
Lemma download_each_keeps_failures (url : string) (a_tags : list Node) :
  ∀ e, (download_each url a_tags).2 = Raise e → download_failure e = false.
Proof.
  induction a_tags as [|a_tag rest IH]; intros e; [done|].
  rewrite download_each_cons. cbv zeta.
  destruct (download_pdf (get a_tag "href")) as [t [[name file]|e'|]];
    [by apply IH| |done].
  destruct (download_failure e') eqn:He'; [by apply IH|].
  by intros [= <-].
Qed.

(** The loop yields at most one record per candidate, and one per
    candidate exactly when every download returns. *)
Lemma download_each_count (url : string) (a_tags : list Node) :
  (length (yields (download_each url a_tags).1) ≤ length a_tags)%nat
  ∧ (length (yields (download_each url a_tags).1) = length a_tags
     ↔ Forall (λ a_tag,
                 succeeded (download_pdf (get a_tag "href")
                              : Gen AttachmentRecord _) = true) a_tags).
Proof.
  induction a_tags as [|a_tag rest [IHle IHeq]]; [by split|].
  rewrite download_each_cons, Forall_cons. cbv zeta.
  pose proof (download_pdf_yields (Y:=AttachmentRecord) (get a_tag "href"))
    as Hquiet.
  destruct (download_pdf (get a_tag "href")) as [t [[name file]|e|]];
    cbn [fst snd] in *.
  - rewrite yields_app, Hquiet, app_nil_l, yields_cons_Yield.
    cbn [length]. split; [lia|].
    rewrite <-IHeq. split; [intros [=]|intros [_ ->]]; done.
  - destruct (download_failure e); cbn [fst snd length].
    + rewrite yields_app, Hquiet, app_nil_l, yields_Print.
      split; [lia|]. split; [lia|by intros []].
    + rewrite Hquiet. cbn [length]. split; [lia|]. split; [lia|by intros []].
  - rewrite Hquiet. cbn [length]. split; [lia|]. split; [lia|by intros []].
Qed.

(** A detail page the server has: the request, then the loop over the
    anchors collected. *)
Lemma scrape_interruption_attachments_page (url : string) (soup : Node) :
  page_at url = Some soup →
  scrape_interruption_attachments url
  = (Get url :: (download_each url (collect_a_tags soup)).1,
     (download_each url (collect_a_tags soup)).2).
Proof.
  intros Hpage.
  destruct (make_request_page (Y:=AttachmentRecord) _ _ Hpage)
    as (text & Hreq & Hsoup).
  unfold scraper.scrape_interruption_attachments.
  by rewrite Hreq, try_except_return, bind_return, Hsoup.
Qed.

(** The anchors the code collects are the candidates. *)
Lemma collect_a_tags_candidates (soup : Node) :
  collect_a_tags soup = candidates soup.
Proof.
  unfold collect_a_tags, candidates, region_anchors.
  destruct (find soup "div" [("class", "attachments")]),
    (find soup "div" [("class", "genericintro")]); simpl;
    by rewrite ?app_nil_r.
Qed.

(** The loop of the code is the extraction of the specification. *)
Lemma download_each_extraction (url : string) (a_tags : list Node) :
  download_each url a_tags = extraction url a_tags.
Proof.
  induction a_tags as [|a_tag rest IH]; [done|].
  rewrite download_each_cons, IH. cbv zeta. cbn [observations.extraction].
  by destruct (download_pdf (get a_tag "href")) as [t [[name file]|e|]].
Qed.

Lemma extraction_app (url : string) (l1 l2 : list Node) :
  (extraction url l1).2 = Return () →
  extraction url (l1 ++ l2)
  = ((extraction url l1).1 ++ (extraction url l2).1, (extraction url l2).2).
Proof.
  rewrite <-!download_each_extraction, download_each_app.
  destruct (download_each url l1) as [t1 o1]. cbn [fst snd]. intros ->.
  by rewrite bind_return.
Qed.

(** An extraction that runs to its end has yielded the records owed for
    the candidates, in their order, and nothing else. *)
Lemma extraction_yields (url : string) (a_tags : list Node) :
  (extraction url a_tags).2 = Return () →
  yields (extraction url a_tags).1 = omap (attachment_of url) a_tags.
Proof.
  induction a_tags as [|a_tag rest IH]; [done|].
  cbn [observations.extraction omap list_omap].
  unfold observations.attachment_of at 1.
  pose proof (download_pdf_yields (Y:=AttachmentRecord) (get a_tag "href"))
    as Hquiet.
  destruct (download_pdf (get a_tag "href")) as [t [[name file]|e|]];
    cbn [fst snd] in *.
  - intros Hrest.
    by rewrite yields_app, Hquiet, app_nil_l, yields_cons_Yield, IH.
  - destruct (download_failure e); cbn [fst snd]; [|done].
    intros Hrest. by rewrite yields_app, Hquiet, app_nil_l, yields_Print, IH.
  - done.
Qed.

(** A candidate the extraction comes to, and whose download returns, has
    its record yielded. *)
Lemma extraction_reaches (url : string) (reached : list Node) (a_tag : Node)
    (rest : list Node) (r : AttachmentRecord) :
  (extraction url reached).2 = Return () →
  attachment_of url a_tag = Some r →
  r ∈ yields (extraction url (reached ++ a_tag :: rest)).1.
Proof.
  intros Hreached Hr. rewrite (extraction_app _ _ _ Hreached). cbn [fst].
  rewrite yields_app. apply elem_of_app. right.
  cbn [observations.extraction]. unfold observations.attachment_of in Hr.
  destruct (download_pdf (get a_tag "href")) as [t [[name file]|e|]];
    [|done..].
  injection Hr as <-. cbn [fst].
  rewrite yields_app. apply elem_of_app. right.
  rewrite yields_cons_Yield. by left.
Qed.

(** C4. On a detail page, when the extraction comes to a candidate whose
    download raises [RequestError] or [WrongContentType], the error is
    printed and the candidates after it are taken as if nothing had
    happened: the run is the request for the page, the extraction of the
    candidates before, the failed download, the printed line, and the
    extraction of the candidates after, which also decides how the run
    stops.  No exception of either kind ever leaves the extractor once
    the page is fetched.  Every later candidate that is come to and whose
    download returns has its record yielded; and when the candidates
    after are extracted to the end, the run ends without an error and its
    records are exactly those owed for the candidates before and after,
    in order. *)
Theorem C4_failed_download_is_skipped (url : string) (soup : Node)
    (before : list Node) (a_tag : Node) (after : list Node)
    (t : list (Event AttachmentRecord)) (e : Exception) :
  page_at url = Some soup →
  candidates soup = before ++ a_tag :: after →
  (extraction url before).2 = Return () →
  download_pdf (get a_tag "href") = (t, Raise e) →
  download_failure e = true →
  let run := scrape_interruption_attachments url in
  run = (Get url :: (extraction url before).1 ++ t
           ++ Print (failure_line e) :: (extraction url after).1,
         (extraction url after).2)
  ∧ (∀ e', run.2 = Raise e' → download_failure e' = false)
  ∧ (∀ reached later rest r,
       after = reached ++ later :: rest →
       (extraction url reached).2 = Return () →
       attachment_of url later = Some r →
       r ∈ yields run.1)
  ∧ ((extraction url after).2 = Return () →
     run.2 = Return ()
     ∧ yields run.1
       = omap (attachment_of url) before ++ omap (attachment_of url) after).
Proof.
  intros Hpage Hcands Hbefore Hdl He run.
  pose proof (download_pdf_yields (Y:=AttachmentRecord) (get a_tag "href"))
    as Hquiet. rewrite Hdl in Hquiet. cbn [fst] in Hquiet.
  assert (run = (Get url :: (extraction url before).1 ++ t
                   ++ Print (failure_line e) :: (extraction url after).1,
                 (extraction url after).2)) as Hrun.
  { subst run. rewrite (scrape_interruption_attachments_page _ _ Hpage).
    rewrite collect_a_tags_candidates, Hcands, download_each_extraction.
    rewrite (extraction_app _ _ _ Hbefore).
    cbn [fst snd observations.extraction]. by rewrite Hdl, He. }
  assert (yields run.1
          = yields (extraction url before).1 ++ yields (extraction url after).1)
    as Hyields.
  { rewrite Hrun. cbn [fst].
    by rewrite yields_Get, !yields_app, Hquiet, yields_Print. }
  split; [exact Hrun|]. split; [|split].
  - rewrite Hrun. cbn [snd]. rewrite <-download_each_extraction.
    apply download_each_keeps_failures.
  - intros reached later rest r -> Hreached Hr.
    rewrite Hyields. apply elem_of_app. right.
    by apply extraction_reaches.
  - intros Hafter. split; [by rewrite Hrun|].
    by rewrite Hyields, !extraction_yields.
Qed.

(** C5. The anchors the extractor collects on a detail page are the
    [docicon] anchors of the attachments region followed by the
    [download] anchors of the generic-intro region, a region that is
    missing adding none; with both regions missing the run is the page
    request alone and ends without an error.  The loop runs over these
    candidates; it yields at most as many records as there are
    candidates, and as many exactly when the download of every candidate
    returns. *)
Theorem C5_candidates_and_count (url : string) (soup : Node) :
  page_at url = Some soup →
  let run := scrape_interruption_attachments url in
  collect_a_tags soup
  = region_anchors soup "attachments" "docicon"
    ++ region_anchors soup "genericintro" "download"
  ∧ (find soup "div" [("class", "attachments")] = None →
     region_anchors soup "attachments" "docicon" = [])
  ∧ (find soup "div" [("class", "genericintro")] = None →
     region_anchors soup "genericintro" "download" = [])
  ∧ (find soup "div" [("class", "attachments")] = None →
     find soup "div" [("class", "genericintro")] = None →
     run = ([Get url], Return ()))
  ∧ run = (Get url :: (download_each url (candidates soup)).1,
           (download_each url (candidates soup)).2)
  ∧ (length (yields run.1) ≤ length (candidates soup))%nat
  ∧ (length (yields run.1) = length (candidates soup)
     ↔ Forall (λ a_tag,
                 succeeded (download_pdf (get a_tag "href")
                              : Gen AttachmentRecord _) = true)
              (candidates soup)).
Proof.
  intros Hpage run. subst run.
  rewrite (scrape_interruption_attachments_page _ _ Hpage).
  rewrite collect_a_tags_candidates. cbn [fst snd].
  split_and!; try done.
  - unfold region_anchors. by intros ->.
  - unfold region_anchors. by intros ->.
  - unfold candidates, region_anchors. by intros -> ->.
  - rewrite yields_Get. apply download_each_count.
  - rewrite yields_Get. apply download_each_count.
Qed.

(** C10. When the response to a download has status 200 but no
    [Content-Type] header, [download_pdf] raises [KeyError], which is not
    one of the two failures the extractor catches: on a detail page the
    run ends with that download's request and the [KeyError] leaves the
    extractor, so the candidates after it are not tried. *)
Theorem C10_missing_content_type_aborts (u name url : string) (soup : Node)
    (before : list Node) (a_tag : Node) (after : list Node) :
  rsplit_last u = Some name →
  requests.status_code (requests_get u) = 200 →
  requests.headers_getitem (requests_get u) "Content-Type" = None →
  page_at url = Some soup →
  candidates soup = before ++ a_tag :: after →
  get a_tag "href" = Some u →
  (download_each url before).2 = Return () →
  (download_pdf (Some u) : Gen AttachmentRecord _)
  = ([Get u], Raise (KeyError "content-type"))
  ∧ download_failure (KeyError "content-type") = false
  ∧ scrape_interruption_attachments url
    = (Get url :: (download_each url before).1 ++ [Get u],
       Raise (KeyError "content-type")).
Proof.
  intros Hname Hst Hct Hpage Hcands Hhref Hbefore.
  pose proof (download_pdf_untyped (Y:=AttachmentRecord) _ _ Hname Hst Hct)
    as Hdl.
  split_and!; [done..|].
  rewrite (scrape_interruption_attachments_page _ _ Hpage).
  rewrite collect_a_tags_candidates, Hcands, download_each_app.
  destruct (download_each url before) as [tb ob]. simpl in Hbefore. subst ob.
  by rewrite bind_return, download_each_cons, Hhref, Hdl.
Qed.

End Properties.

(** ** The scraper on the small site *)

Section Site.

Import scraper contract site.

Local Abbreviation listing_chain :=
  (listing_chain requests_get decode_utf8 BeautifulSoup).
Local Abbreviation listing_path :=
  (listing_path requests_get decode_utf8 BeautifulSoup).
Local Abbreviation page_at := (page_at requests_get decode_utf8 BeautifulSoup).
Local Abbreviation download_each := (download_each requests_get).

(** Settles a statement about the site by running the definitions. *)
Ltac by_running :=
  vm_compute; repeat first [reflexivity | discriminate | eexists | constructor].

Lemma page1_is_listing_page : listing_page page1.
Proof. repeat split; by_running. Qed.

Lemma page2_is_listing_page : listing_page page2.
Proof. repeat split; by_running. Qed.

Lemma page_before_gap_is_listing_page : listing_page page_before_gap.
Proof. repeat split; by_running. Qed.

Lemma two_page_chain : listing_chain page1_url [page1; page2].
Proof.
  cbn [contract.listing_chain].
  split; [by_running|]. split; [apply page1_is_listing_page|].
  eexists. split; [by_running|].
  split; [by_running|]. split; [apply page2_is_listing_page|by_running].
Qed.

Lemma C1_walk_follows_chain_witness :
  listing_chain page1_url [page1; page2]
  ∧ (length [page1; page2] ≤ 2)%nat
  ∧ walk 2 (Some page1_url)
    = ([Get page1_url;
        Yield (record_of h3071); Yield (record_of h3070);
        Get page2_url;
        Yield (record_of h3069)],
       Return ())
  ∧ length (yields (walk 2 (Some page1_url)).1) = 3%nat.
Proof.
  split; [exact two_page_chain|]. split; [simpl; lia|].
  destruct (C1_walk_follows_chain requests_get decode_utf8 BeautifulSoup
              [page1; page2] (Some page1_url) 2 two_page_chain)
    as (Hwalk & _ & Hlen); [simpl; lia|].
  split; [exact Hwalk|exact Hlen].
Defined.

(** C2. The failing case: the request for […/old/c.pdf] is answered, after
    a redirect, by […/new/c.pdf] with status 404; the [RequestError] that
    [download_pdf] raises carries the address it was called with, not the
    one the response came from. *)
Theorem C2_error_carries_the_requested_url :
  requests.url (requests_get pdf_moved) = pdf_moved_to
  ∧ pdf_moved_to ≠ pdf_moved
  ∧ (download (Some pdf_moved) : Gen () _)
    = ([Get pdf_moved], Raise (RequestError pdf_moved 404 "Not Found")).
Proof. split_and!; by_running. Qed.

(** C3. The failing cases: a listing page without a pagination list makes
    the walk raise [AttributeError] after the page's records, and a page
    without a main region makes it raise [AttributeError] before any
    record. *)
Theorem C3_absent_container_raises :
  find single_page "ul" [("class", "pagination")] = None
  ∧ walk 5 (Some "https://kplc.co.ke/single")
    = ([Get "https://kplc.co.ke/single";
        Yield (record_of h3071); Yield (record_of h3070)],
       Raise (AttributeError "find"))
  ∧ find (document []) "main" [] = None
  ∧ walk 5 (Some "https://kplc.co.ke/item/4")
    = ([Get "https://kplc.co.ke/item/4"], Raise (AttributeError "find_all")).
Proof. split_and!; by_running. Qed.

(** C8. The failing case: for a heading with text after its anchor the
    walk yields a record whose title is [None], while the heading's text
    content (what [get_text()] gives, and what the extractor reads for
    its link text) is the whole title. *)
Theorem C8_title_is_not_the_text_content :
  headings mixed_page = [h_mixed]
  ∧ get_text h_mixed = "Interruptions - 30.05.2019"
  ∧ ∃ r, yields (walk 5 (Some "https://kplc.co.ke/mixed")).1 = [r]
         ∧ title r ≠ Some (get_text h_mixed).
Proof.
  split; [by_running|]. split; [by_running|].
  eexists. split; [by_running|]. vm_compute. discriminate.
Qed.

Lemma C9_refused_page_aborts_walk_witness :
  listing_path "https://kplc.co.ke/gap" [page_before_gap] page3_url
  ∧ requests.status_code (requests_get page3_url) ≠ 200
  ∧ (length [page_before_gap] < 2)%nat
  ∧ walk 2 (Some "https://kplc.co.ke/gap")
    = ([Get "https://kplc.co.ke/gap"; Yield (record_of h3071);
        Get page3_url;
        Print "Error: Not Found (404) on https://kplc.co.ke/category/view/50?page=3"],
       Raise (RequestError page3_url 404 "Not Found")).
Proof.
  assert (listing_path "https://kplc.co.ke/gap" [page_before_gap] page3_url)
    as Hpath.
  { cbn [contract.listing_path].
    split; [by_running|]. split; [apply page_before_gap_is_listing_page|].
    eexists. split; by_running. }
  assert (requests.status_code (requests_get page3_url) ≠ 200) as Hst
    by by_running.
  assert (length [page_before_gap] < 2)%nat as Hfuel by (simpl; lia).
  split; [exact Hpath|]. split; [exact Hst|]. split; [exact Hfuel|].
  exact (proj1 (C9_refused_page_aborts_walk requests_get decode_utf8
                  BeautifulSoup [page_before_gap]
                  (Some "https://kplc.co.ke/gap") page3_url 2
                  Hpath Hst Hfuel)).
Defined.

Lemma C6_exact_content_type_witness :
  rsplit_last pdf_charset = Some "e.pdf"
  ∧ requests.status_code (requests_get pdf_charset) = 200
  ∧ requests.headers_getitem (requests_get pdf_charset) "Content-Type"
    = Some "application/pdf;charset=binary"
  ∧ succeeded (download (Some pdf_charset) : Gen () _) = false
  ∧ (download (Some pdf_charset) : Gen () _)
    = ([Get pdf_charset],
       Raise (WrongContentType "File is not a PDF" pdf_charset
                "application/pdf;charset=binary")).
Proof.
  assert (rsplit_last pdf_charset = Some "e.pdf") as Hname by by_running.
  assert (requests.status_code (requests_get pdf_charset) = 200) as Hst
    by by_running.
  assert (requests.headers_getitem (requests_get pdf_charset) "Content-Type"
          = Some "application/pdf;charset=binary") as Hct by by_running.
  split; [exact Hname|]. split; [exact Hst|]. split; [exact Hct|].
  split; [by_running|].
  apply (proj2 (C6_exact_content_type requests_get (Y:=()) pdf_charset "e.pdf"
                  "application/pdf;charset=binary" Hname Hst Hct)).
  discriminate.
Defined.


Lemma C4_failed_download_is_skipped_witness :
  let moved := anchor pdf_moved ["download"] [text "archive"] in
  let before := [anchor pdf_html ["docicon"] [text "pdf"];
                 anchor pdf_a ["docicon"] [text "pdf"]] in
  let after := [anchor pdf_b ["download"] [text "archive"]] in
  let e := RequestError pdf_moved 404 "Not Found" in
  let file_a := {| tempfile.data := ok_bytes; tempfile.pos := 0 |} in
  let file_b := {| tempfile.data := ok_bytes ++ ok_bytes; tempfile.pos := 0 |} in
  page_at item2_url = Some item2
  ∧ candidates item2 = before ++ moved :: after
  ∧ (observations.extraction requests_get item2_url before).2 = Return ()
  ∧ (download (get moved "href") : Gen AttachmentRecord _)
    = ([Get pdf_moved], Raise e)
  ∧ download_failure e = true
  ∧ attachments item2_url
    = ([Get item2_url;
        Get pdf_html; Print "Error: File is not a PDF";
        Get pdf_a;
        Yield {| parent_link := item2_url; pdf_filename := "a.pdf";
                 pdf_file_temp := file_a; download_link_text := "pdf";
                 download_link := Some pdf_a |};
        Get pdf_moved;
        Print "Error: Not Found (404) on https://kplc.co.ke/img/old/c.pdf";
        Get pdf_b;
        Yield {| parent_link := item2_url; pdf_filename := "b.pdf";
                 pdf_file_temp := file_b; download_link_text := "archive";
                 download_link := Some pdf_b |}],
       Return ()).
Proof.
  intros moved before after e file_a file_b.
  assert (page_at item2_url = Some item2) as Hpage by by_running.
  assert (candidates item2 = before ++ moved :: after) as Hcands
    by by_running.
  assert ((observations.extraction requests_get item2_url before).2
          = Return ()) as Hbefore by by_running.
  assert ((download (get moved "href") : Gen AttachmentRecord _)
          = ([Get pdf_moved], Raise e)) as Hdl by by_running.
  assert (download_failure e = true) as He by by_running.
  split; [exact Hpage|]. split; [exact Hcands|]. split; [exact Hbefore|].
  split; [exact Hdl|]. split; [exact He|].
  etransitivity;
    [exact (proj1 (C4_failed_download_is_skipped requests_get decode_utf8
                     BeautifulSoup item2_url item2 before moved after
                     [Get pdf_moved] e Hpage Hcands Hbefore Hdl He))|].
  by_running.
Defined.

Lemma C5_candidates_and_count_witness :
  page_at item1_url = Some item1
  ∧ collect_a_tags item1
    = [anchor pdf_a ["docicon"] [text "pdf"];
       anchor pdf_b ["docicon"] [text "pdf"]]
  ∧ (length (yields (attachments item1_url).1) ≤ length (candidates item1))%nat.
Proof.
  assert (page_at item1_url = Some item1) as Hpage by by_running.
  split; [exact Hpage|]. split; [by_running|].
  exact (proj1 (proj2 (proj2 (proj2 (proj2 (proj2
           (C5_candidates_and_count requests_get decode_utf8 BeautifulSoup
              item1_url item1 Hpage))))))).
Defined.

Lemma C10_missing_content_type_aborts_witness :
  let untyped := anchor pdf_untyped ["docicon"] [text "pdf"] in
  let before := [anchor pdf_a ["docicon"] [text "pdf"]] in
  let after := [anchor pdf_b ["docicon"] [text "pdf"]] in
  rsplit_last pdf_untyped = Some "d.pdf"
  ∧ requests.status_code (requests_get pdf_untyped) = 200
  ∧ requests.headers_getitem (requests_get pdf_untyped) "Content-Type" = None
  ∧ page_at item3_url = Some item3
  ∧ candidates item3 = before ++ untyped :: after
  ∧ get untyped "href" = Some pdf_untyped
  ∧ (download_each item3_url before).2 = Return ()
  ∧ attachments item3_url
    = (Get item3_url :: (download_each item3_url before).1 ++ [Get pdf_untyped],
       Raise (KeyError "content-type")).
Proof.
  intros untyped before after.
  assert (rsplit_last pdf_untyped = Some "d.pdf") as Hname by by_running.
  assert (requests.status_code (requests_get pdf_untyped) = 200) as Hst
    by by_running.
  assert (requests.headers_getitem (requests_get pdf_untyped) "Content-Type"
          = None) as Hct by by_running.
  assert (page_at item3_url = Some item3) as Hpage by by_running.
  assert (candidates item3 = before ++ untyped :: after) as Hcands
    by by_running.
  assert (get untyped "href" = Some pdf_untyped) as Hhref by by_running.
  assert ((download_each item3_url before).2 = Return ()) as Hbefore
    by by_running.
  split; [exact Hname|]. split; [exact Hst|]. split; [exact Hct|].
  split; [exact Hpage|]. split; [exact Hcands|]. split; [exact Hhref|].
  split; [exact Hbefore|].
  exact (proj2 (proj2 (C10_missing_content_type_aborts requests_get
                         decode_utf8 BeautifulSoup pdf_untyped "d.pdf"
                         item3_url item3 before untyped after
                         Hname Hst Hct Hpage Hcands Hhref Hbefore))).
Defined.

End Site.

(** ** Further properties of the code *)

(** *** File names *)

Lemma append_String (c : ascii) (s t : string) :
  String c s +:+ t = String c (s +:+ t).
Proof. reflexivity. Qed.

Lemma rsplit_last_None (s : string) :
  scraper.rsplit_last s = None ↔ observations.contains_slash s = false.
Proof.
  induction s as [|c s IH]; simpl; [done|].
  destruct (scraper.rsplit_last s) as [t|].
  - split; [done|]. intros [_ Hs]%orb_false_elim. by apply IH in Hs.
  - case_bool_decide; simpl; [done|]. split; [intros _; by apply IH|done].
Qed.

Lemma rsplit_last_app (prefix name : string) :
  observations.contains_slash name = false →
  scraper.rsplit_last (prefix +:+ "/" +:+ name) = Some name.
Proof.
  intros Hname%rsplit_last_None.
  induction prefix as [|c prefix IH].
  - change ("" +:+ "/" +:+ name) with (String "/" name). simpl.
    by rewrite Hname.
  - rewrite append_String. simpl. by rewrite IH.
Qed.

Lemma rsplit_last_Some (s name : string) :
  scraper.rsplit_last s = Some name →
  observations.contains_slash name = false
  ∧ ∃ prefix, s = prefix +:+ "/" +:+ name.
Proof.
  revert name. induction s as [|c s IH]; intros name; simpl; [done|].
  destruct (scraper.rsplit_last s) as [t|] eqn:Hs.
  - intros [= ->]. destruct (IH _ eq_refl) as (Hfree & prefix & ->).
    split; [done|]. by exists (String c prefix).
  - case_bool_decide as Hc; [|done]. intros [= ->]. subst c.
    split; [by apply rsplit_last_None|]. by exists "".
Qed.

Section Further.

Import scraper contract observations.

Variable requests_get : string → requests.Response.
Variable decode_utf8 : list Byte.byte → option string.
Variable BeautifulSoup : string → Node.

Local Abbreviation page_at :=
  (page_at requests_get decode_utf8 BeautifulSoup).
Local Abbreviation listing_path :=
  (listing_path requests_get decode_utf8 BeautifulSoup).
Local Abbreviation make_request := (make_request requests_get decode_utf8).
Local Abbreviation download_pdf := (download_pdf requests_get).
Local Abbreviation download_each := (download_each requests_get).
Local Abbreviation scrape_interruptions :=
  (scrape_interruptions requests_get decode_utf8 BeautifulSoup).
Local Abbreviation scrape_interruption_attachments :=
  (scrape_interruption_attachments requests_get decode_utf8 BeautifulSoup).

(** *** Downloads *)

(** What a download that returns went through. *)
Lemma download_pdf_returned {Y} (link : option string)
    (t : list (Event Y)) (name : string) (file : tempfile.File) :
  download_pdf link = (t, Return (name, file)) →
  ∃ u, link = Some u ∧ t = [Get u]
       ∧ rsplit_last u = Some name
       ∧ requests.status_code (requests_get u) = 200
       ∧ requests.headers_getitem (requests_get u) "Content-Type"
         = Some "application/pdf"
       ∧ file = tempfile.seek
                  (foldl tempfile.write tempfile.NamedTemporaryFile
                         (requests.iter_content (requests_get u) 4096)) 0.
Proof.
  unfold scraper.download_pdf. destruct link as [u|]; [|done]. run.
  destruct (rsplit_last u) as [name'|] eqn:Hname; [|done]. run.
  case_bool_decide as Hst; [done|].
  destruct (requests.headers_getitem _ _) as [ct|] eqn:Hct; [|done]. run.
  case_bool_decide as Hpdf; [done|]. intros [= <- <- <-].
  subst ct. by exists u.
Qed.

(** What a download went through when it failed in one of the two ways
    the extractor recovers from. *)
Lemma download_pdf_failed {Y} (link : option string)
    (t : list (Event Y)) (e : Exception) :
  download_pdf link = (t, Raise e) → download_failure e = true →
  ∃ u, link = Some u ∧ t = [Get u].
Proof.
  unfold scraper.download_pdf. destruct link as [u|]; [|by intros [= <- <-]].
  run. destruct (rsplit_last u) as [name'|]; [|by intros [= <- <-]]. run.
  case_bool_decide as Hst; [intros [= <- <-]; by exists u|].
  destruct (requests.headers_getitem _ _) as [ct|]; [|by intros [= <- <-]].
  run. case_bool_decide; [|done]. intros [= <- <-]. by exists u.
Qed.

(** X1. The file name is the last segment of the address: when the address
    is [prefix/name] and [name] has no slash, a download that passes the
    two checks returns [name] as the file name, whatever the response
    says. *)
Theorem download_pdf_names_last_segment {Y : Type} (prefix name : string) :
  contains_slash name = false →
  let u := prefix +:+ "/" +:+ name in
  requests.status_code (requests_get u) = 200 →
  requests.headers_getitem (requests_get u) "Content-Type"
    = Some "application/pdf" →
  ∃ file, (download_pdf (Some u) : Gen Y _) = ([Get u], Return (name, file)).
Proof.
  intros Hname u Hst Hct. eexists.
  apply download_pdf_pdf; [|done..]. by apply rsplit_last_app.
Qed.

(** X2. A download returns only for an address [prefix/name] that was
    requested once, answered with status 200 and the content type
    [application/pdf]; the name returned has no slash and the file
    returned holds the body and stands at position 0. *)
Theorem download_pdf_returns_only_checked {Y : Type} (link : option string)
    (t : list (Event Y)) (name : string) (file : tempfile.File) :
  download_pdf link = (t, Return (name, file)) →
  ∃ u prefix,
    link = Some u ∧ t = [Get u]
    ∧ u = prefix +:+ "/" +:+ name ∧ contains_slash name = false
    ∧ requests.status_code (requests_get u) = 200
    ∧ requests.headers_getitem (requests_get u) "Content-Type"
      = Some "application/pdf"
    ∧ file = {| tempfile.data := requests.content (requests_get u);
                tempfile.pos := 0 |}.
Proof.
  intros (u & -> & -> & Hname & Hst & Hct & ->)%download_pdf_returned.
  destruct (rsplit_last_Some _ _ Hname) as (Hfree & prefix & Hu).
  exists u, prefix. split_and!; try done.
  rewrite foldl_write_at_end by done. unfold tempfile.seek. simpl.
  f_equal. apply iter_content_concat; lia.
Qed.

(** A link without an [href], or with one that has no slash, makes the
    download raise before any request is issued. *)
Lemma download_pdf_unusable {Y} (link : option string) :
  unusable link = true →
  (download_pdf link : Gen Y _) = ([], Raise (unusable_error link)).
Proof.
  destruct link as [u|]; [|done]. simpl.
  intros Hu%negb_true_iff%rsplit_last_None.
  unfold scraper.download_pdf. run. by rewrite Hu.
Qed.

(** *** The extractor *)

Lemma gets_app {Y} (t1 t2 : list (Event Y)) :
  gets (t1 ++ t2) = gets t1 ++ gets t2.
Proof. apply omap_app. Qed.

Lemma gets_Get {Y} (u : string) (t : list (Event Y)) :
  gets (Get u :: t) = u :: gets t.
Proof. reflexivity. Qed.

Lemma gets_Yield {Y} (y : Y) (t : list (Event Y)) :
  gets (Yield y :: t) = gets t.
Proof. reflexivity. Qed.

Lemma gets_Print {Y} (line : string) (t : list (Event Y)) :
  gets (Print line :: t) = gets t.
Proof. reflexivity. Qed.

(** X3. A detail page that is refused: one request, one printed line with the
    error's text, and the [RequestError], which carries the address the
    response came from, leaves the extractor; no download is tried. *)
Theorem refused_detail_page_aborts (url : string) :
  requests.status_code (requests_get url) ≠ 200 →
  let r := requests_get url in
  scrape_interruption_attachments url
  = ([Get url;
      Print ("Error: " +:+ requests.reason r +:+ " (" +:+
             pretty (requests.status_code r) +:+ ") on " +:+ requests.url r)],
     Raise (RequestError (requests.url r) (requests.status_code r)
              (requests.reason r))).
Proof.
  intros Hst r. unfold scraper.scrape_interruption_attachments.
  by rewrite (make_request_refused requests_get decode_utf8 _ Hst).
Qed.

(** X4. A page whose body is not UTF-8: the [UnicodeDecodeError] leaves the
    walker and the extractor alike, after the one request and without a
    printed line; [except RequestError] does not catch it. *)
Theorem undecodable_page_aborts_silently (fuel : nat) (url : string) :
  requests.status_code (requests_get url) = 200 →
  decode_utf8 (requests.content (requests_get url)) = None →
  scrape_interruption_attachments url = ([Get url], Raise UnicodeDecodeError)
  ∧ (or_ (Some url) KPLC_INTERRUPTIONS_URL = url →
     scrape_interruptions (S fuel) (Some url)
     = ([Get url], Raise UnicodeDecodeError)).
Proof.
  intros Hst Hdec.
  assert (∀ Y, (make_request url : Gen Y string)
               = ([Get url], Raise UnicodeDecodeError)) as Hreq.
  { intros Y. unfold scraper.make_request, GET. run.
    rewrite bool_decide_false by (intros Hne; by apply Hne).
    by rewrite Hdec. }
  split.
  - unfold scraper.scrape_interruption_attachments. by rewrite Hreq.
  - intros Hurl. cbn [scraper.scrape_interruptions]. by rewrite Hurl, Hreq.
Qed.

(** X5. A candidate whose link is unusable (no [href], or an [href] without a
    slash, such as a bare relative file name) ends the extraction: the
    exception [download_pdf] raises on it ([AttributeError] or
    [IndexError]) is not caught, no request is made for it, and the
    candidates after it are not tried. *)
Theorem unusable_link_aborts_extraction (url : string) (soup : Node)
    (before : list Node) (a_tag : Node) (after : list Node) :
  page_at url = Some soup →
  candidates soup = before ++ a_tag :: after →
  (download_each url before).2 = Return () →
  unusable (get a_tag "href") = true →
  scrape_interruption_attachments url
  = (Get url :: (download_each url before).1,
     Raise (unusable_error (get a_tag "href"))).
Proof.
  intros Hpage Hcands Hbefore Hlink.
  rewrite (scrape_interruption_attachments_page _ _ _ _ _ Hpage).
  rewrite collect_a_tags_candidates, Hcands, download_each_app.
  destruct (scraper.download_each _ url before) as [tb ob].
  simpl in Hbefore. subst ob.
  rewrite bind_return, download_each_cons.
  rewrite (download_pdf_unusable _ Hlink). cbv zeta.
  destruct (get a_tag "href"); simpl; by rewrite app_nil_r.
Qed.

(** The loop, when it runs to its end, has requested every candidate's
    address once, in the order of the candidates. *)
Lemma download_each_gets (url : string) (a_tags : list Node) :
  (download_each url a_tags).2 = Return () →
  Some <$> gets (download_each url a_tags).1
  = (λ a_tag, get a_tag "href") <$> a_tags.
Proof.
  induction a_tags as [|a_tag rest IH]; [done|].
  rewrite download_each_cons. cbv zeta.
  destruct (download_pdf (get a_tag "href")) as [t [[name file]|e|]] eqn:Hdl.
  - apply download_pdf_returned in Hdl as (u & Hhref & -> & _).
    cbn [fst snd]. intros Hrest.
    rewrite fmap_cons, <-(IH Hrest), Hhref.
    by rewrite gets_app, gets_Get, gets_Yield.
  - destruct (download_failure e) eqn:He; [|done].
    destruct (download_pdf_failed _ _ _ Hdl He) as (u & Hhref & ->).
    cbn [fst snd]. intros Hrest.
    rewrite fmap_cons, <-(IH Hrest), Hhref.
    by rewrite gets_app, gets_Get, gets_Print.
  - done.
Qed.

(** X6. The extractor makes one attempt per address: when it runs to its end,
    the requests it issued are the one for the page followed by one for
    each candidate, in the order of the candidates: no request is
    repeated after a failure, and none is saved when two candidates have
    the same address. *)
Theorem one_request_per_candidate (url : string) (soup : Node) :
  page_at url = Some soup →
  (scrape_interruption_attachments url).2 = Return () →
  Some <$> gets (scrape_interruption_attachments url).1
  = Some url :: ((λ a_tag, get a_tag "href") <$> candidates soup).
Proof.
  intros Hpage.
  rewrite (scrape_interruption_attachments_page _ _ _ _ _ Hpage).
  rewrite collect_a_tags_candidates. cbn [fst snd]. intros Hend.
  by rewrite gets_Get, fmap_cons, download_each_gets.
Qed.

(** Every record of the loop comes from one of the anchors it was given,
    whose download passed both checks. *)
Lemma download_each_records (url : string) (a_tags : list Node) :
  Forall (λ r,
    parent_link r = url
    ∧ ∃ a_tag u,
        a_tag ∈ a_tags
        ∧ get a_tag "href" = Some u
        ∧ download_link r = Some u
        ∧ download_link_text r = get_text a_tag
        ∧ rsplit_last u = Some (pdf_filename r)
        ∧ requests.status_code (requests_get u) = 200
        ∧ requests.headers_getitem (requests_get u) "Content-Type"
          = Some "application/pdf"
        ∧ pdf_file_temp r
          = {| tempfile.data := requests.content (requests_get u);
               tempfile.pos := 0 |})
    (yields (download_each url a_tags).1).
Proof.
  induction a_tags as [|a_tag rest IH]; [constructor|].
  assert (Forall (λ r,
    parent_link r = url
    ∧ ∃ a_tag' u,
        a_tag' ∈ a_tag :: rest
        ∧ get a_tag' "href" = Some u
        ∧ download_link r = Some u
        ∧ download_link_text r = get_text a_tag'
        ∧ rsplit_last u = Some (pdf_filename r)
        ∧ requests.status_code (requests_get u) = 200
        ∧ requests.headers_getitem (requests_get u) "Content-Type"
          = Some "application/pdf"
        ∧ pdf_file_temp r
          = {| tempfile.data := requests.content (requests_get u);
               tempfile.pos := 0 |})
    (yields (download_each url rest).1)) as IH'.
  { eapply Forall_impl; [exact IH|]. cbv beta.
    intros r (Hparent & a_tag' & u & Hin & Hrest).
    split; [done|]. exists a_tag', u. split; [by right|done]. }
  clear IH. rewrite download_each_cons. cbv zeta.
  pose proof (download_pdf_yields requests_get (Y:=AttachmentRecord)
                (get a_tag "href")) as Hquiet.
  destruct (download_pdf (get a_tag "href")) as [t [[name file]|e|]] eqn:Hdl;
    cbn [fst snd] in *.
  - rewrite yields_app, Hquiet, app_nil_l, yields_cons_Yield.
    constructor; [|done].
    destruct (download_pdf_returned _ _ _ _ Hdl)
      as (u & Hhref & _ & Hname & Hst & Hct & ->).
    split; [done|]. exists a_tag, u. cbn.
    split_and!; try done; [by left|].
    rewrite foldl_write_at_end by done. unfold tempfile.seek. simpl.
    f_equal. apply iter_content_concat; lia.
  - destruct (download_failure e); cbn [fst snd].
    + by rewrite yields_app, Hquiet, app_nil_l, yields_Print.
    + rewrite Hquiet. constructor.
  - rewrite Hquiet. constructor.
Qed.

(** X7. Every record the extractor yields on a detail page describes one of
    the page's candidates: [parent_link] is the page's address,
    [download_link] and [download_link_text] are the candidate's [href]
    and text, [pdf_filename] is what follows the last slash of the
    [href], and the file holds, from position 0, the body of a response
    that had status 200 and the content type [application/pdf]. *)
Theorem records_describe_candidates (url : string) (soup : Node) :
  page_at url = Some soup →
  Forall (λ r,
    parent_link r = url
    ∧ ∃ a_tag u,
        a_tag ∈ candidates soup
        ∧ get a_tag "href" = Some u
        ∧ download_link r = Some u
        ∧ download_link_text r = get_text a_tag
        ∧ rsplit_last u = Some (pdf_filename r)
        ∧ requests.status_code (requests_get u) = 200
        ∧ requests.headers_getitem (requests_get u) "Content-Type"
          = Some "application/pdf"
        ∧ pdf_file_temp r
          = {| tempfile.data := requests.content (requests_get u);
               tempfile.pos := 0 |})
    (yields (scrape_interruption_attachments url).1).
Proof.
  intros Hpage.
  rewrite (scrape_interruption_attachments_page _ _ _ _ _ Hpage).
  rewrite collect_a_tags_candidates. cbn [fst]. rewrite yields_Get.
  apply download_each_records.
Qed.

(** The loop, when it runs to its end, has yielded the candidates whose
    download returned, in the order of the candidates. *)
Lemma download_each_links (url : string) (a_tags : list Node) :
  (download_each url a_tags).2 = Return () →
  download_link <$> yields (download_each url a_tags).1
  = (λ a_tag, get a_tag "href")
    <$> filter (λ a_tag, succeeded (download_pdf (get a_tag "href")
                                      : Gen AttachmentRecord _) = true)
               a_tags.
Proof.
  induction a_tags as [|a_tag rest IH]; [done|].
  rewrite download_each_cons. cbv zeta.
  pose proof (download_pdf_yields requests_get (Y:=AttachmentRecord)
                (get a_tag "href")) as Hquiet.
  destruct (download_pdf (get a_tag "href")) as [t [[name file]|e|]] eqn:Hdl;
    cbn [fst snd] in *.
  - intros Hrest. rewrite filter_cons_True by (by rewrite Hdl).
    rewrite yields_app, Hquiet, app_nil_l, yields_cons_Yield, !fmap_cons.
    by rewrite IH.
  - destruct (download_failure e); cbn [fst snd]; [|done].
    intros Hrest. rewrite filter_cons_False by (by rewrite Hdl).
    rewrite yields_app, Hquiet, app_nil_l, yields_Print. by apply IH.
  - done.
Qed.

(** X8. The records keep the order of the candidates: when the extractor
    runs to its end, the links of the records it yielded are the links of
    the candidates whose download returned, in the candidates' order,
    with nothing left out, put in or moved. *)
Theorem records_follow_candidate_order (url : string) (soup : Node) :
  page_at url = Some soup →
  (scrape_interruption_attachments url).2 = Return () →
  download_link <$> yields (scrape_interruption_attachments url).1
  = (λ a_tag, get a_tag "href")
    <$> filter (λ a_tag, succeeded (download_pdf (get a_tag "href")
                                      : Gen AttachmentRecord _) = true)
               (candidates soup).
Proof.
  intros Hpage.
  rewrite (scrape_interruption_attachments_page _ _ _ _ _ Hpage).
  rewrite collect_a_tags_candidates. cbn [fst snd]. rewrite yields_Get.
  apply download_each_links.
Qed.

(** *** The walker *)

(** The walker sees its argument only through [url or default]. *)
Lemma scrape_interruptions_or (fuel : nat) (url : option string) :
  scrape_interruptions fuel url
  = scrape_interruptions fuel (Some (or_ url KPLC_INTERRUPTIONS_URL)).
Proof. destruct fuel; [done|]. by destruct url as [[|c u]|]. Qed.

(** X9. A next-page anchor without an [href], or with an empty one, sends the
    walk back to the default listing address: after the page's records
    the walk goes on as a walk from [KPLC_INTERRUPTIONS_URL]. *)
Theorem next_without_href_restarts_at_default (fuel : nat)
    (url : option string) (soup a_tag : Node) :
  page_at (or_ url KPLC_INTERRUPTIONS_URL) = Some soup →
  listing_page soup →
  next_anchor soup = Some a_tag →
  get a_tag "href" = None ∨ get a_tag "href" = Some "" →
  let rest := scrape_interruptions fuel (Some KPLC_INTERRUPTIONS_URL) in
  scrape_interruptions (S fuel) url
  = (Get (or_ url KPLC_INTERRUPTIONS_URL)
       :: (Yield ∘ record_of <$> headings soup) ++ rest.1, rest.2).
Proof.
  intros Hpage Hlisting Hnext Hhref rest. subst rest.
  rewrite (scrape_interruptions_page _ _ _ _ _ _ Hpage Hlisting), Hnext.
  cbv zeta. rewrite (scrape_interruptions_or fuel (get a_tag "href")).
  by destruct Hhref as [-> | ->].
Qed.

Lemma yield_headings_app (l1 l2 : list Node) :
  yield_headings (l1 ++ l2) = (yield_headings l1 ;; yield_headings l2).
Proof.
  induction l1 as [|h2_tag l1 IH]; cbn [app yield_headings];
    [by rewrite bind_mret|].
  rewrite IH. destruct (a h2_tag) as [anchor|]; [|done].
  destruct (yield_headings l1) as [t1 [[]|e|]],
    (yield_headings l2) as [t2 o2]; by run.
Qed.

(** X10. A heading without an anchor ends the walk: the records of the
    headings before it on the page are yielded, then the
    [AttributeError] of [h2_tag.a.get] on [None] leaves the walk; the
    headings after it and the pages after this one are not reached. *)
Theorem heading_without_anchor_aborts_walk (fuel : nat) (url : option string)
    (soup : Node) (before : list Node) (h2_tag : Node) (after : list Node) :
  page_at (or_ url KPLC_INTERRUPTIONS_URL) = Some soup →
  headings soup = before ++ h2_tag :: after →
  Forall (λ h, is_Some (a h)) before →
  a h2_tag = None →
  scrape_interruptions (S fuel) url
  = (Get (or_ url KPLC_INTERRUPTIONS_URL) :: (Yield ∘ record_of <$> before),
     Raise (AttributeError "get")).
Proof.
  intros Hpage Hheadings Hbefore Hnone.
  destruct (make_request_page requests_get decode_utf8 BeautifulSoup
              (Y:=ListingRecord) _ _ Hpage) as (text & Hreq & Hsoup).
  cbn [scraper.scrape_interruptions].
  rewrite Hreq, try_except_return, bind_return, Hsoup.
  unfold headings in Hheadings.
  destruct (find soup "main" []) as [main|]; [|by destruct before]. run.
  rewrite Hheadings, yield_headings_app.
  rewrite (yield_headings_records _ Hbefore).
  cbn [yield_headings]. rewrite Hnone. run. by rewrite app_nil_r.
Qed.

(** *** Pagination that comes back to a page *)

(** Along pages linked one to the next the walk does the pages' part and
    then goes on from where the last one links to. *)
Lemma walk_along_path (pages : list Node) :
  ∀ (url : option string) (target : string) (fuel : nat),
  listing_path (or_ url KPLC_INTERRUPTIONS_URL) pages target →
  scrape_interruptions (length pages + fuel) url
  = (walk_trace (or_ url KPLC_INTERRUPTIONS_URL) pages
       ++ (scrape_interruptions fuel (Some target)).1,
     (scrape_interruptions fuel (Some target)).2).
Proof.
  induction pages as [|soup rest IH]; intros url target fuel Hpath.
  - simpl in Hpath. subst target. rewrite <-scrape_interruptions_or. simpl.
    by destruct (scrape_interruptions fuel url).
  - destruct Hpath as (Hpage & Hlisting & a_tag & Hnext & Hpath).
    cbn [length Nat.add walk_trace].
    rewrite (scrape_interruptions_page _ _ _ _ _ _ Hpage Hlisting), Hnext.
    cbv zeta. rewrite (IH _ _ _ Hpath). cbn [fst snd].
    by rewrite app_assoc.
Qed.

(** A bound that does not reach the end of the path cuts the walk off. *)
Lemma cut_off_along_path (pages : list Node) :
  ∀ (url : option string) (target : string) (fuel : nat),
  listing_path (or_ url KPLC_INTERRUPTIONS_URL) pages target →
  (fuel ≤ length pages)%nat →
  (scrape_interruptions fuel url).2 = OutOfFuel.
Proof.
  induction pages as [|soup rest IH]; intros url target [|fuel] Hpath Hle;
    try done; [simpl in Hle; lia|].
  destruct Hpath as (Hpage & Hlisting & a_tag & Hnext & Hpath).
  rewrite (scrape_interruptions_page _ _ _ _ _ _ Hpage Hlisting), Hnext.
  cbv zeta. cbn [snd]. apply (IH _ _ _ Hpath). simpl in Hle. lia.
Qed.

(** X12. The walker has no guard against pagination that comes back to
    a page it has visited.  When the next-page links lead from the start
    page through some pages back to the start page, the walk goes round:
    under a bound that allows [rounds] turns of the cycle it requests the
    same pages and yields the same records [rounds] times over before
    anything else, and under no bound does it come to its end.  (The
    bound stands for the depth of nested calls the interpreter allows.) *)
Theorem pagination_cycle_repeats (url : option string) (pages : list Node)
    (rounds fuel : nat) :
  pages ≠ [] →
  listing_path (or_ url KPLC_INTERRUPTIONS_URL) pages
               (or_ url KPLC_INTERRUPTIONS_URL) →
  (rounds * length pages ≤ fuel)%nat →
  mjoin (replicate rounds (walk_trace (or_ url KPLC_INTERRUPTIONS_URL) pages))
    `prefix_of` (scrape_interruptions fuel url).1
  ∧ (scrape_interruptions fuel url).2 ≠ Return ().
Proof.
  intros Hpages Hcycle Hfuel. split.
  - revert fuel Hfuel. induction rounds as [|n IH]; intros fuel Hfuel.
    + apply prefix_nil.
    + replace fuel with (length pages + (fuel - length pages))%nat
        by (simpl in Hfuel; lia).
      rewrite (walk_along_path _ _ _ _ Hcycle), <-scrape_interruptions_or.
      cbn [replicate mjoin list_join fst].
      apply prefix_app, IH. simpl in Hfuel. lia.
  - clear Hfuel. induction (lt_wf fuel) as [fuel' _ IH].
    destruct (decide (fuel' ≤ length pages)%nat) as [Hle|Hgt].
    + by rewrite (cut_off_along_path pages url _ fuel' Hcycle).
    + replace fuel' with (length pages + (fuel' - length pages))%nat by lia.
      rewrite (walk_along_path _ _ _ _ Hcycle). cbn [snd].
      rewrite <-scrape_interruptions_or. apply IH.
      destruct pages; [done|]. simpl in *. lia.
Qed.

End Further.

(** ** The further properties on the small site *)

Section FurtherSite.

Import scraper contract observations site.

Ltac by_running :=
  vm_compute; repeat first [reflexivity | discriminate | eexists | constructor].

Lemma download_pdf_names_last_segment_witness :
  contains_slash "a.pdf" = false
  ∧ requests.status_code
      (requests_get ("https://kplc.co.ke/img/full" +:+ "/" +:+ "a.pdf")) = 200
  ∧ requests.headers_getitem
      (requests_get ("https://kplc.co.ke/img/full" +:+ "/" +:+ "a.pdf"))
      "Content-Type" = Some "application/pdf"
  ∧ ∃ file, (download (Some pdf_a) : Gen () _)
            = ([Get pdf_a], Return ("a.pdf", file)).
Proof.
  assert (contains_slash "a.pdf" = false) as Hname by by_running.
  assert (requests.status_code
            (requests_get ("https://kplc.co.ke/img/full" +:+ "/" +:+ "a.pdf"))
          = 200) as Hst by by_running.
  assert (requests.headers_getitem
            (requests_get ("https://kplc.co.ke/img/full" +:+ "/" +:+ "a.pdf"))
            "Content-Type" = Some "application/pdf") as Hct by by_running.
  split; [exact Hname|]. split; [exact Hst|]. split; [exact Hct|].
  exact (download_pdf_names_last_segment requests_get (Y:=())
           "https://kplc.co.ke/img/full" "a.pdf" Hname Hst Hct).
Defined.

Lemma download_pdf_returns_only_checked_witness :
  (download (Some pdf_b) : Gen () _)
  = ([Get pdf_b],
     Return ("b.pdf", {| tempfile.data := ok_bytes ++ ok_bytes;
                         tempfile.pos := 0 |}))
  ∧ ∃ u prefix, Some pdf_b = Some u ∧ u = prefix +:+ "/" +:+ "b.pdf"
                ∧ requests.status_code (requests_get u) = 200.
Proof.
  assert ((download (Some pdf_b) : Gen () _)
          = ([Get pdf_b],
             Return ("b.pdf", {| tempfile.data := ok_bytes ++ ok_bytes;
                                 tempfile.pos := 0 |}))) as Hdl by by_running.
  split; [exact Hdl|].
  destruct (download_pdf_returns_only_checked requests_get _ _ _ _ Hdl)
    as (u & prefix & Hlink & _ & Hu & _ & Hst & _).
  by exists u, prefix.
Defined.

Lemma refused_detail_page_aborts_witness :
  requests.status_code (requests_get "https://kplc.co.ke/item/5") ≠ 200
  ∧ attachments "https://kplc.co.ke/item/5"
    = ([Get "https://kplc.co.ke/item/5";
        Print "Error: Not Found (404) on https://kplc.co.ke/item/5"],
       Raise (RequestError "https://kplc.co.ke/item/5" 404 "Not Found")).
Proof.
  assert (requests.status_code (requests_get "https://kplc.co.ke/item/5")
          ≠ 200) as Hst by by_running.
  split; [exact Hst|].
  exact (refused_detail_page_aborts requests_get decode_utf8 BeautifulSoup
           "https://kplc.co.ke/item/5" Hst).
Defined.

Lemma undecodable_page_aborts_silently_witness :
  requests.status_code (requests_get item1_url) = 200
  ∧ site_more.decode_nothing (requests.content (requests_get item1_url)) = None
  ∧ scrape_interruption_attachments requests_get site_more.decode_nothing
      BeautifulSoup item1_url
    = ([Get item1_url], Raise UnicodeDecodeError).
Proof.
  assert (requests.status_code (requests_get item1_url) = 200) as Hst
    by by_running.
  assert (site_more.decode_nothing (requests.content (requests_get item1_url))
          = None) as Hdec by by_running.
  split; [exact Hst|]. split; [exact Hdec|].
  exact (proj1 (undecodable_page_aborts_silently requests_get
                  site_more.decode_nothing BeautifulSoup 0 item1_url
                  Hst Hdec)).
Defined.

Lemma unusable_link_aborts_extraction_witness :
  let bare := anchor "notice.pdf" ["docicon"] [text "pdf"] in
  let before := [anchor pdf_a ["docicon"] [text "pdf"]] in
  let after := [anchor pdf_b ["docicon"] [text "pdf"]] in
  page_at site_more.requests_get decode_utf8 site_more.BeautifulSoup
    site_more.item_bare_url = Some site_more.item_bare
  ∧ candidates site_more.item_bare = before ++ bare :: after
  ∧ (download_each site_more.requests_get site_more.item_bare_url before).2
    = Return ()
  ∧ unusable (get bare "href") = true
  ∧ site_more.attachments site_more.item_bare_url
    = (Get site_more.item_bare_url
         :: (download_each site_more.requests_get site_more.item_bare_url
               before).1,
       Raise IndexError).
Proof.
  intros bare before after.
  assert (page_at site_more.requests_get decode_utf8 site_more.BeautifulSoup
            site_more.item_bare_url = Some site_more.item_bare) as Hpage
    by by_running.
  assert (candidates site_more.item_bare = before ++ bare :: after) as Hcands
    by by_running.
  assert ((download_each site_more.requests_get site_more.item_bare_url
             before).2 = Return ()) as Hbefore by by_running.
  assert (unusable (get bare "href") = true) as Hbare by by_running.
  split; [exact Hpage|]. split; [exact Hcands|]. split; [exact Hbefore|].
  split; [exact Hbare|].
  exact (unusable_link_aborts_extraction site_more.requests_get decode_utf8
           site_more.BeautifulSoup site_more.item_bare_url site_more.item_bare
           before bare after Hpage Hcands Hbefore Hbare).
Defined.

Lemma one_request_per_candidate_witness :
  page_at requests_get decode_utf8 BeautifulSoup item2_url = Some item2
  ∧ (attachments item2_url).2 = Return ()
  ∧ Some <$> gets (attachments item2_url).1
    = [Some item2_url; Some pdf_html; Some pdf_a; Some pdf_moved; Some pdf_b].
Proof.
  assert (page_at requests_get decode_utf8 BeautifulSoup item2_url
          = Some item2) as Hpage by by_running.
  assert ((attachments item2_url).2 = Return ()) as Hend by by_running.
  split; [exact Hpage|]. split; [exact Hend|].
  etransitivity;
    [exact (one_request_per_candidate requests_get decode_utf8 BeautifulSoup
              item2_url item2 Hpage Hend)|].
  by_running.
Defined.

Lemma records_describe_candidates_witness :
  page_at requests_get decode_utf8 BeautifulSoup item2_url = Some item2
  ∧ Forall (λ r, parent_link r = item2_url)
           (yields (attachments item2_url).1).
Proof.
  assert (page_at requests_get decode_utf8 BeautifulSoup item2_url
          = Some item2) as Hpage by by_running.
  split; [exact Hpage|].
  eapply Forall_impl;
    [exact (records_describe_candidates requests_get decode_utf8
              BeautifulSoup item2_url item2 Hpage)|].
  intros r Hr. exact (proj1 Hr).
Defined.

Lemma records_follow_candidate_order_witness :
  page_at requests_get decode_utf8 BeautifulSoup item2_url = Some item2
  ∧ (attachments item2_url).2 = Return ()
  ∧ download_link <$> yields (attachments item2_url).1
    = [Some pdf_a; Some pdf_b].
Proof.
  assert (page_at requests_get decode_utf8 BeautifulSoup item2_url
          = Some item2) as Hpage by by_running.
  assert ((attachments item2_url).2 = Return ()) as Hend by by_running.
  split; [exact Hpage|]. split; [exact Hend|].
  etransitivity;
    [exact (records_follow_candidate_order requests_get decode_utf8
              BeautifulSoup item2_url item2 Hpage Hend)|].
  by_running.
Defined.

Lemma next_without_href_restarts_at_default_witness :
  page_at site_more.requests_get decode_utf8 site_more.BeautifulSoup
    (or_ (Some site_more.bare_next_url) KPLC_INTERRUPTIONS_URL)
    = Some site_more.bare_next
  ∧ listing_page site_more.bare_next
  ∧ contract.next_anchor site_more.bare_next = Some site_more.bare_next_anchor
  ∧ (get site_more.bare_next_anchor "href" = None
     ∨ get site_more.bare_next_anchor "href" = Some "")
  ∧ gets (site_more.walk 2 (Some site_more.bare_next_url)).1
    = [site_more.bare_next_url; KPLC_INTERRUPTIONS_URL].
Proof.
  assert (page_at site_more.requests_get decode_utf8 site_more.BeautifulSoup
            (or_ (Some site_more.bare_next_url) KPLC_INTERRUPTIONS_URL)
          = Some site_more.bare_next) as Hpage by by_running.
  assert (listing_page site_more.bare_next) as Hlisting
    by (repeat split; by_running).
  assert (contract.next_anchor site_more.bare_next = Some site_more.bare_next_anchor)
    as Hnext by by_running.
  assert (get site_more.bare_next_anchor "href" = None
          ∨ get site_more.bare_next_anchor "href" = Some "") as Hhref
    by (left; by_running).
  split; [exact Hpage|]. split; [exact Hlisting|]. split; [exact Hnext|].
  split; [exact Hhref|].
  unfold site_more.walk.
  rewrite (next_without_href_restarts_at_default site_more.requests_get
             decode_utf8 site_more.BeautifulSoup 1
             (Some site_more.bare_next_url) site_more.bare_next
             site_more.bare_next_anchor Hpage Hlisting Hnext Hhref).
  by_running.
Defined.

Lemma heading_without_anchor_aborts_walk_witness :
  page_at site_more.requests_get decode_utf8 site_more.BeautifulSoup
    (or_ (Some site_more.plain_heading_url) KPLC_INTERRUPTIONS_URL)
    = Some site_more.plain_heading
  ∧ headings site_more.plain_heading = [h3071] ++ site_more.h_plain :: [h3070]
  ∧ Forall (λ h, is_Some (a h)) [h3071]
  ∧ a site_more.h_plain = None
  ∧ site_more.walk 3 (Some site_more.plain_heading_url)
    = ([Get site_more.plain_heading_url; Yield (record_of h3071)],
       Raise (AttributeError "get")).
Proof.
  assert (page_at site_more.requests_get decode_utf8 site_more.BeautifulSoup
            (or_ (Some site_more.plain_heading_url) KPLC_INTERRUPTIONS_URL)
          = Some site_more.plain_heading) as Hpage by by_running.
  assert (headings site_more.plain_heading
          = [h3071] ++ site_more.h_plain :: [h3070]) as Hheadings
    by by_running.
  assert (Forall (λ h, is_Some (a h)) [h3071]) as Hbefore by by_running.
  assert (a site_more.h_plain = None) as Hplain by by_running.
  split; [exact Hpage|]. split; [exact Hheadings|]. split; [exact Hbefore|].
  split; [exact Hplain|].
  exact (heading_without_anchor_aborts_walk site_more.requests_get
           decode_utf8 site_more.BeautifulSoup 2
           (Some site_more.plain_heading_url) site_more.plain_heading
           [h3071] site_more.h_plain [h3070]
           Hpage Hheadings Hbefore Hplain).
Defined.

Lemma pagination_cycle_repeats_witness :
  [site_more.round_a; site_more.round_b] ≠ []
  ∧ listing_path site_more.requests_get decode_utf8 site_more.BeautifulSoup
      site_more.round_a_url [site_more.round_a; site_more.round_b]
      site_more.round_a_url
  ∧ (2 * length [site_more.round_a; site_more.round_b] ≤ 5)%nat
  ∧ [Get site_more.round_a_url;
     Yield (record_of h3071); Yield (record_of h3070);
     Get site_more.round_b_url; Yield (record_of h3069);
     Get site_more.round_a_url;
     Yield (record_of h3071); Yield (record_of h3070);
     Get site_more.round_b_url; Yield (record_of h3069)]
    `prefix_of` (site_more.walk 5 (Some site_more.round_a_url)).1
  ∧ (site_more.walk 5 (Some site_more.round_a_url)).2 ≠ Return ().
Proof.
  assert ([site_more.round_a; site_more.round_b] ≠ []) as Hpages by done.
  assert (listing_path site_more.requests_get decode_utf8
            site_more.BeautifulSoup site_more.round_a_url
            [site_more.round_a; site_more.round_b] site_more.round_a_url)
    as Hcycle.
  { cbn [contract.listing_path].
    split; [by_running|]. split; [repeat split; by_running|].
    eexists. split; [by_running|].
    split; [by_running|]. split; [repeat split; by_running|].
    eexists. split; by_running. }
  assert (2 * length [site_more.round_a; site_more.round_b] ≤ 5)%nat as Hfuel
    by (simpl; lia).
  split; [exact Hpages|]. split; [exact Hcycle|]. split; [exact Hfuel|].
  exact (pagination_cycle_repeats site_more.requests_get decode_utf8
           site_more.BeautifulSoup (Some site_more.round_a_url)
           [site_more.round_a; site_more.round_b] 2 5 Hpages Hcycle Hfuel).
Defined.

End FurtherSite.
